(** * Outline: the search scene and the shared-document scene

    A shallow embedding of the control logic of
    [app/scenes/Search/Search.tsx] and [app/scenes/Document/Shared.tsx],
    with the properties their specification states about them.

    Component state is passed explicitly; what the scenes do to the outside
    (calls to the search service, entries added to the recent-search store,
    cookies written) is recorded in the state that is threaded through. *)

From Stdlib Require Import Ascii List Arith Bool Lia.
From stdpp Require Import base option strings list gmap.
Import ListNotations.

Set Warnings "-register-all".

(** ** The JavaScript built-ins the two scenes rely on *)

Module JS.

(** A JavaScript string is a sequence of code units; [string], a sequence of
    characters, stands for it.  The operations below only compare, measure
    and cut such sequences. *)

(** Truthiness of a string value: only the empty string is falsy. *)
Definition truthy (s : string) : bool := negb (String.eqb s "").

(** [String.prototype.endsWith(searchString)] with the default end
    position: [start = len - searchLength]; a negative [start] gives
    [false], otherwise the code units from [start] are compared with
    [searchString]. *)
Definition endsWith (s searchString : string) : bool :=
  let len := String.length s in
  let searchLength := String.length searchString in
  if Nat.leb searchLength len
  then String.eqb (String.substring (len - searchLength) searchLength s)
         searchString
  else false.

(** [URLSearchParams]: an ordered list of name/value pairs; [get] returns
    the value of the first pair with the given name, or [null]. *)
Definition URLSearchParams : Type := list (string * string).

Fixpoint get (params : URLSearchParams) (name : string) : option string :=
  match params with
  | [] => None
  | (k, v) :: rest => if String.eqb k name then Some v else get rest name
  end.

(** [a === b] where [a] may be [null] and [b] is a string. *)
Definition strict_eq (a : option string) (b : string) : bool :=
  match a with
  | Some v => String.eqb v b
  | None => false
  end.

(** [v ? v : undefined] on a possibly-null string. *)
Definition or_undefined (a : option string) : option string :=
  match a with
  | Some v => if truthy v then Some v else None
  | None => None
  end.

End JS.

(** ** Shared.tsx: the shared-document scene *)

Module Shared.

(** [NavigationNode] of [@shared/types]: [{id, url, children}].  The
    declared type of [children] is an array, so the guard
    [if (node.children)] of [findInTree] always passes (arrays are truthy)
    and the loop runs over the list, possibly empty. *)
Inductive NavigationNode : Type :=
  Node { id : string; url : string; children : list NavigationNode }.

Record DocumentModel : Type :=
  { doc_id : string; doc_url : string; doc_title : string }.

Record PublicTeam : Type := { team_name : string }.

Record Response : Type :=
  { document : DocumentModel;
    team : option PublicTeam;
    sharedTree : option NavigationNode }.

(** [findInTree]: the closure variable [documentId] is threaded through;
    the boolean is the function's return value. *)
Fixpoint findInTree (documentSlug : string) (node : NavigationNode)
    (documentId : option string) {struct node} : bool * option string :=
  match node with
  | Node nid nurl nchildren =>
      if JS.endsWith nurl documentSlug then (true, Some nid)
      else
        (fix for_of (cs : list NavigationNode) (documentId : option string)
           : bool * option string :=
           match cs with
           | [] => (false, documentId)
           | child :: rest =>
               let '(found, documentId') :=
                 findInTree documentSlug child documentId in
               if found then (true, documentId') else for_of rest documentId'
           end) nchildren documentId
  end.

(** The [for ... of node.children] loop of [findInTree], named. *)
Fixpoint findInChildren (documentSlug : string) (cs : list NavigationNode)
    (documentId : option string) : bool * option string :=
  match cs with
  | [] => (false, documentId)
  | child :: rest =>
      let '(found, documentId') := findInTree documentSlug child documentId in
      if found then (true, documentId')
      else findInChildren documentSlug rest documentId'
  end.

(** [response?.sharedTree]. *)
Definition sharedTreeOf (response : option Response)
    : option NavigationNode :=
  match response with
  | Some r => sharedTree r
  | None => None
  end.

Definition useDocumentId (documentSlug : string)
    (response : option Response) : option string :=
  let documentId : option string := None in
  match response with
  | Some r =>
      match sharedTree r with
      | Some tree => snd (findInTree documentSlug tree documentId)
      | None => documentId
      end
  | None => documentId
  end.

(** *** The specification's wording of the resolution *)

(** Nodes of a tree in depth-first pre-order. *)
Fixpoint preorder (node : NavigationNode) : list NavigationNode :=
  match node with
  | Node _ _ cs =>
      node :: (fix go (l : list NavigationNode) : list NavigationNode :=
                 match l with
                 | [] => []
                 | c :: rest => preorder c ++ go rest
                 end) cs
  end.

Fixpoint preorder_forest (cs : list NavigationNode) : list NavigationNode :=
  match cs with
  | [] => []
  | c :: rest => preorder c ++ preorder_forest rest
  end.

(** [s] ends with [suffix]: some string followed by [suffix] gives [s]. *)
Definition ends_with (s suffix : string) : Prop :=
  exists front : string, s = front +:+ suffix.

(** [first_match P l x]: [x] is the first element of [l] that satisfies
    [P]. *)
Definition first_match {A : Type} (P : A -> Prop) (l : list A) (x : A) : Prop :=
  exists before after : list A,
    l = before ++ x :: after /\ P x /\ Forall (fun y => ~ P y) before.

(** Resolution as the specification words it. *)
Definition resolves_to (documentSlug : string) (tree : option NavigationNode)
    (result : option string) : Prop :=
  match tree, result with
  | None, None => True
  | None, Some _ => False
  | Some t, Some i =>
      exists n, first_match (fun m => ends_with (url m) documentSlug)
                  (preorder t) n /\ id n = i
  | Some t, None =>
      Forall (fun m => ~ ends_with (url m) documentSlug) (preorder t)
  end.

(** The node test of [findInTree]. *)
Definition matches (slug : string) (n : NavigationNode) : bool :=
  JS.endsWith (url n) slug.

(** What a search reports, given the first matching node of the traversal
    (if any) and the value [documentId] had before. *)
Definition report (hit : option NavigationNode) (d : option string)
    : bool * option string :=
  match hit with
  | Some n => (true, Some (id n))
  | None => (false, d)
  end.

Definition example_tree : NavigationNode :=
  Node "a" "/x" [Node "b" "/y/slug" []].

(** *** The scene's render function *)

(** Modelled from the spec: the error classes of [~/utils/errors], which is
    not part of this fragment.  The specification's taxonomy is
    [OfflineError], [AuthorizationError] and a generic, unclassified error,
    as distinguishable kinds. *)
Inductive FetchError : Type :=
| OfflineError
| AuthorizationError
| GenericError (message : string).

Definition instanceof_OfflineError (e : FetchError) : bool :=
  match e with OfflineError => true | _ => false end.

Definition instanceof_AuthorizationError (e : FetchError) : bool :=
  match e with AuthorizationError => true | _ => false end.

(** The capability set [usePolicy] returns, as far as the scene reads it. *)
Record Policy : Type := { update : bool; download : bool }.

(** The route props the scene reads, with [location.search] already parsed
    into [searchParams]. *)
Record Props : Type :=
  { shareId : string;
    documentSlug : string;
    pathname : string;
    searchParams : JS.URLSearchParams }.

(** The two [useState] cells. *)
Record SceneState : Type :=
  { response : option Response;
    error : option FetchError }.

Definition initialState : SceneState :=
  {| response := None; error := None |}.

(** [fetchData] once [documents.fetchWithSharedTree] has settled:
    [setResponse] on success, [setError] on failure.  Neither cell is
    cleared by the other's setter. *)
Definition fetchData (outcome : Response + FetchError) (st : SceneState)
    : SceneState :=
  match outcome with
  | inl r => {| response := Some r; error := error st |}
  | inr err => {| response := response st; error := Some err |}
  end.

Inductive Wrapper : Type := ContainerEditor | ContainerEditorWithoutExport.

(** What the scene returns. *)
Inductive View : Type :=
| ErrorOffline
| Login
| Error404
| Loading
| Redirect (to : string)
| SharedLayout (doc : DocumentModel) (wrapper : Wrapper) (sidebar : bool).

(** The render prop handed to [Login]:
    [config?.name && isCloudHosted ? <Content>...</Content> : null];
    the result is the pair (teamName, appName) of the message shown. *)
Definition loginChildren (isCloudHosted : bool) (appName : string)
    (config : option PublicTeam) : option (string * string) :=
  match config with
  | Some c =>
      if JS.truthy (team_name c) && isCloudHosted
      then Some (team_name c, appName)
      else None
  | None => None
  end.

(** [setCookie(key, value)] of tiny-cookie on the browser's cookie jar. *)
Definition setCookie (key value : string) (jar : gmap string string)
    : gmap string string :=
  <[key := value]> jar.

(** The body of [SharedDocumentScene] from [if (error)] on: the view
    returned and the cookie jar after the render. *)
Definition SharedDocumentScene (props : Props) (st : SceneState)
    (can : Policy) (jar : gmap string string) : View * gmap string string :=
  match error st with
  | Some err =>
      if instanceof_OfflineError err then (ErrorOffline, jar)
      else if instanceof_AuthorizationError err then
        let jar := setCookie "postLoginRedirectPath" (pathname props) jar in
        (Login, jar)
      else (Error404, jar)
  | None =>
      match response st with
      | None => (Loading, jar)
      | Some r =>
          if JS.strict_eq (JS.get (searchParams props) "edit") "true"
             && update can
          then (Redirect (doc_url (document r)), jar)
          else
            let WrapperPrint :=
              if download can then ContainerEditor
              else ContainerEditorWithoutExport in
            let sidebar :=
              match sharedTree r with
              | Some t => negb (Nat.eqb (length (children t)) 0)
              | None => false
              end in
            (SharedLayout (document r) WrapperPrint sidebar, jar)
      end
  end.

(** The render states that are not the redirect. *)
Definition is_redirect (v : View) : bool :=
  match v with Redirect _ => true | _ => false end.

End Shared.

(** ** Search.tsx: the search scene *)

Module Search.

(** [SearchParams] of [~/stores/DocumentsStore], with the fields
    [fetchResults] fills in; [undefined] is [None]. *)
Record SearchParams : Type :=
  { p_offset : nat;
    p_limit : nat;
    p_dateFilter : option string;
    p_includeArchived : bool;
    p_includeDrafts : bool;
    p_collectionId : option string;
    p_userId : option string }.

Definition eq_opt (a b : option string) : bool :=
  match a, b with
  | Some x, Some y => String.eqb x y
  | None, None => true
  | _, _ => false
  end.

(** lodash [isEqual(params, this.lastParams)]: [lastParams] is [undefined]
    or an object with the same seven keys, compared value by value. *)
Definition isEqual (a : SearchParams) (b : option SearchParams) : bool :=
  match b with
  | None => false
  | Some b =>
      Nat.eqb (p_offset a) (p_offset b)
      && Nat.eqb (p_limit a) (p_limit b)
      && eq_opt (p_dateFilter a) (p_dateFilter b)
      && Bool.eqb (p_includeArchived a) (p_includeArchived b)
      && Bool.eqb (p_includeDrafts a) (p_includeDrafts b)
      && eq_opt (p_collectionId a) (p_collectionId b)
      && eq_opt (p_userId a) (p_userId b)
  end.

Record SearchResult : Type := { document_id : string; context : string }.

Record SearchEntry : Type :=
  { entry_id : string; entry_query : string; entry_createdAt : string }.

(** The component's fields, followed by what it has done to its
    collaborators: the calls made to [documents.search] (oldest first) and
    the entries handed to [searches.add]. *)
Record State : Type :=
  { lastQuery : string;
    lastParams : option SearchParams;
    query : string;
    params : JS.URLSearchParams;
    offset : nat;
    allowLoadMore : bool;
    isLoading : bool;
    searchCalls : list (string * SearchParams);
    searchesAdded : list SearchEntry }.

Definition set_lastQuery (v : string) (s : State) : State :=
  {| lastQuery := v; lastParams := lastParams s; query := query s;
     params := params s; offset := offset s;
     allowLoadMore := allowLoadMore s; isLoading := isLoading s;
     searchCalls := searchCalls s; searchesAdded := searchesAdded s |}.

Definition set_lastParams (v : SearchParams) (s : State) : State :=
  {| lastQuery := lastQuery s; lastParams := Some v; query := query s;
     params := params s; offset := offset s;
     allowLoadMore := allowLoadMore s; isLoading := isLoading s;
     searchCalls := searchCalls s; searchesAdded := searchesAdded s |}.

Definition set_query (v : string) (s : State) : State :=
  {| lastQuery := lastQuery s; lastParams := lastParams s; query := v;
     params := params s; offset := offset s;
     allowLoadMore := allowLoadMore s; isLoading := isLoading s;
     searchCalls := searchCalls s; searchesAdded := searchesAdded s |}.

Definition set_params (v : JS.URLSearchParams) (s : State) : State :=
  {| lastQuery := lastQuery s; lastParams := lastParams s; query := query s;
     params := v; offset := offset s;
     allowLoadMore := allowLoadMore s; isLoading := isLoading s;
     searchCalls := searchCalls s; searchesAdded := searchesAdded s |}.

Definition set_offset (v : nat) (s : State) : State :=
  {| lastQuery := lastQuery s; lastParams := lastParams s; query := query s;
     params := params s; offset := v;
     allowLoadMore := allowLoadMore s; isLoading := isLoading s;
     searchCalls := searchCalls s; searchesAdded := searchesAdded s |}.

Definition set_allowLoadMore (v : bool) (s : State) : State :=
  {| lastQuery := lastQuery s; lastParams := lastParams s; query := query s;
     params := params s; offset := offset s;
     allowLoadMore := v; isLoading := isLoading s;
     searchCalls := searchCalls s; searchesAdded := searchesAdded s |}.

Definition set_isLoading (v : bool) (s : State) : State :=
  {| lastQuery := lastQuery s; lastParams := lastParams s; query := query s;
     params := params s; offset := offset s;
     allowLoadMore := allowLoadMore s; isLoading := v;
     searchCalls := searchCalls s; searchesAdded := searchesAdded s |}.

(** [this.props.documents.search(query, params)] is called. *)
Definition documents_search (q : string) (p : SearchParams) (s : State)
    : State :=
  {| lastQuery := lastQuery s; lastParams := lastParams s; query := query s;
     params := params s; offset := offset s;
     allowLoadMore := allowLoadMore s; isLoading := isLoading s;
     searchCalls := searchCalls s ++ [(q, p)];
     searchesAdded := searchesAdded s |}.

(** [this.props.searches.add(entry)]. *)
Definition searches_add (e : SearchEntry) (s : State) : State :=
  {| lastQuery := lastQuery s; lastParams := lastParams s; query := query s;
     params := params s; offset := offset s;
     allowLoadMore := allowLoadMore s; isLoading := isLoading s;
     searchCalls := searchCalls s;
     searchesAdded := searchesAdded s ++ [e] |}.

(** The getters over [this.params]. *)
Definition includeArchived (s : State) : bool :=
  JS.strict_eq (JS.get (params s) "includeArchived") "true".

Definition collectionId (s : State) : option string :=
  JS.or_undefined (JS.get (params s) "collectionId").

Definition userId (s : State) : option string :=
  JS.or_undefined (JS.get (params s) "userId").

Definition dateFilter (s : State) : option string :=
  JS.or_undefined (JS.get (params s) "dateFilter").

(** What the awaited [documents.search] promise settles with; on success
    it carries the values [uuidv4()] and [new Date().toISOString()] yield
    when the routine resumes. *)
Inductive Settlement : Type :=
| Resolves (results : list SearchResult) (uuid : string) (timestamp : string)
| Rejects (err : string).

(** How a call of the async routine ends. *)
Inductive Completion : Type :=
| Returned
| Thrown (err : string).

(** The route props the component reads. *)
Record Props : Type :=
  { term : option string;
    location_search : string }.

Section WithCollaborators.

(** [DEFAULT_PAGINATION_LIMIT] of [~/stores/BaseStore], the page size. *)
Variable DEFAULT_PAGINATION_LIMIT : nat.

(** [decodeURIComponentSafe] of [~/utils/urls]. *)
Variable decodeURIComponentSafe : string -> string.

(** [new URLSearchParams(search)]. *)
Variable URLSearchParams_new : string -> JS.URLSearchParams.

(** The object literal [params] built at the top of [fetchResults]. *)
Definition buildParams (s : State) : SearchParams :=
  {| p_offset := offset s;
     p_limit := DEFAULT_PAGINATION_LIMIT;
     p_dateFilter := dateFilter s;
     p_includeArchived := includeArchived s;
     p_includeDrafts := true;
     p_collectionId := collectionId s;
     p_userId := userId s |}.

(** [fetchResults] up to its [await]: either the routine is already done
    ([None]) or a call to the search service has been made and is
    pending ([Some] of its arguments). *)
Definition fetchResults_start (s : State)
    : State * option (string * SearchParams) :=
  if JS.truthy (query s) then
    let params := buildParams s in
    if String.eqb (lastQuery s) (query s) && isEqual params (lastParams s)
    then (set_isLoading false s, None)
    else
      let s := set_isLoading true s in
      let s := set_lastQuery (query s) s in
      let s := set_lastParams params s in
      let s := documents_search (query s) params s in
      (s, Some (query s, params))
  else
    let s := set_isLoading false s in
    let s := set_lastQuery (query s) s in
    (s, None).

(** [fetchResults] from the point where the awaited promise settles: the
    rest of the [try] block or the [catch] block, then [finally]. *)
Definition fetchResults_settle (a : Settlement) (s : State)
    : State * Completion :=
  match a with
  | Resolves results uuid timestamp =>
      let s := searches_add {| entry_id := uuid;
                               entry_query := query s;
                               entry_createdAt := timestamp |} s in
      let s :=
        if Nat.eqb (length results) 0
           || Nat.ltb (length results) DEFAULT_PAGINATION_LIMIT
        then set_allowLoadMore false s
        else set_offset (offset s + DEFAULT_PAGINATION_LIMIT) s in
      (set_isLoading false s, Returned)
  | Rejects err =>
      let s := set_lastQuery "" s in
      (set_isLoading false s, Thrown err)
  end.

(** The test of the dedup guard in [fetchResults], on its own. *)
Definition guard (s : State) : bool :=
  String.eqb (lastQuery s) (query s)
  && isEqual (buildParams s) (lastParams s).

(** One whole call of [fetchResults], the promise settling with [a] and
    nothing else running in between. *)
Definition fetchResults (a : Settlement) (s : State) : State * Completion :=
  match fetchResults_start s with
  | (s, None) => (s, Returned)
  | (s, Some _) => fetchResults_settle a s
  end.

(** [loadMoreResults], up to the [await] inside [fetchResults]. *)
Definition loadMoreResults_start (s : State)
    : State * option (string * SearchParams) :=
  if negb (allowLoadMore s) || isLoading s then (s, None)
  else fetchResults_start s.

(** [handleQueryChange]; the call [this.fetchResults()] is not awaited,
    so the handler returns when the routine reaches its [await]. *)
Definition handleQueryChange (props : Props) (s : State)
    : State * option (string * SearchParams) :=
  let s := set_params (URLSearchParams_new (location_search props)) s in
  let s := set_offset 0 s in
  let s := set_allowLoadMore true s in
  let s := set_isLoading true s in
  fetchResults_start s.

(** [handleTermChange]. *)
Definition handleTermChange (props : Props) (s : State)
    : State * option (string * SearchParams) :=
  let query := decodeURIComponentSafe (default "" (term props)) in
  let s := set_query (if JS.truthy query then query else "") s in
  let s := set_offset 0 s in
  let s := set_allowLoadMore true s in
  let s := set_isLoading true s in
  fetchResults_start s.

(** The arguments a call of [fetchResults] on [s] works with. *)
Definition callArgs (s : State) : string * SearchParams :=
  (query s, buildParams s).

(** The component as constructed, before [componentDidMount]. *)
Definition initialState (props : Props) : State :=
  {| lastQuery := "";
     lastParams := None;
     query := decodeURIComponentSafe (default "" (term props));
     params := [];
     offset := 0;
     allowLoadMore := true;
     isLoading := false;
     searchCalls := [];
     searchesAdded := [] |}.

End WithCollaborators.

(** A component showing the term ["design doc"], nothing fetched yet. *)
Definition example_state : State :=
  {| lastQuery := "";
     lastParams := None;
     query := "design doc";
     params := [];
     offset := 0;
     allowLoadMore := true;
     isLoading := false;
     searchCalls := [];
     searchesAdded := [] |}.

Definition example_result : SearchResult :=
  {| document_id := "d"; context := "design doc" |}.

End Search.

(** ** Shared.tsx: the rest of the scene *)

Module SharedScene.
Import Shared.

(** [themeOverride]:
    [["dark", "light"].includes(searchParams.get("theme") || "")
       ? searchParams.get("theme") : undefined]. *)
Definition themeOverride (searchParams : JS.URLSearchParams) : option string :=
  let theme := default "" (JS.get searchParams "theme") in
  if existsb (String.eqb theme) ["dark"; "light"]
  then JS.get searchParams "theme"
  else None.

(** [pathname.replace(/\/$/, "")]: the pattern matches a slash that is the
    last character of the input, and the match is replaced by nothing. *)
Fixpoint replaceTrailingSlash (pathname : string) : string :=
  match pathname with
  | EmptyString => EmptyString
  | String c rest =>
      match rest with
      | EmptyString => if Ascii.eqb c "/" then EmptyString else pathname
      | String _ _ => String c (replaceTrailingSlash rest)
      end
  end.

(** The [href] of the canonical link:
    [canonicalOrigin + location.pathname.replace(/\/$/, "")]. *)
Definition canonicalHref (canonicalOrigin pathname : string) : string :=
  canonicalOrigin +:+ replaceTrailingSlash pathname.

(** The effect [if (documentId) ui.setActiveDocument(documentId)], on the
    active-document pointer of the ui store. *)
Definition setActiveDocumentEffect (documentId : option string)
    (activeDocumentId : option string) : option string :=
  match documentId with
  | Some i => if JS.truthy i then Some i else activeDocumentId
  | None => activeDocumentId
  end.

(** The scene's state after the fetch effect has run and settled once for
    each outcome of the list, in order, starting from the mount. *)
Definition afterFetches (outcomes : list (Response + FetchError)) : SceneState :=
  fold_left (fun st outcome => fetchData outcome st) outcomes initialState.

Definition succeeded (outcome : Response + FetchError) : bool :=
  match outcome with inl _ => true | inr _ => false end.

(** The fallback shown for a recorded error. *)
Definition fallbackFor (e : FetchError) : View :=
  if instanceof_OfflineError e then ErrorOffline
  else if instanceof_AuthorizationError e then Login
  else Error404.

Definition example_response : Response :=
  {| document := {| doc_id := "d1"; doc_url := "/doc/d1"; doc_title := "T" |};
     team := None;
     sharedTree := Some example_tree |}.

Definition example_props : Props :=
  {| shareId := "s1"; documentSlug := "slug";
     pathname := "/s/s1/doc/slug"; searchParams := [] |}.

End SharedScene.

(** ** Search.tsx: the rest of the component *)

Module SearchComponent.
Import Search.

(** The getter [isFiltered], as a truth value:
    [dateFilter || userId || collectionId || includeArchived]. *)
Definition isFiltered (s : State) : bool :=
  bool_decide (is_Some (dateFilter s))
  || bool_decide (is_Some (userId s))
  || bool_decide (is_Some (collectionId s))
  || includeArchived s.

(** [showEmpty] of [render], [nresults] being the number of results the
    documents store holds for the query:
    [!this.isLoading && this.query && results.length === 0]. *)
Definition showEmpty (s : State) (nresults : nat) : bool :=
  negb (isLoading s) && JS.truthy (query s) && Nat.eqb nresults 0.

(** The requests a handler has sent, as a list. *)
Definition sent (r : option (string * SearchParams))
    : list (string * SearchParams) :=
  match r with
  | Some x => [x]
  | None => []
  end.

(** What a key handler asks of the router's history. *)
Inductive HistoryAction : Type :=
| Replace (pathname search : string)
| GoBack.

(** What [handleKeyDown] has done when it returns. *)
Record KeyOutcome : Type :=
  { k_state : State;
    k_request : option (string * SearchParams);
    k_history : list HistoryAction;
    k_preventDefault : bool;
    k_focus : bool }.

(** What happens to a mounted component. *)
Inductive Event : Type :=
| QueryChanged (props : Props)
| TermChanged (props : Props)
| WaypointEntered
| EnterPressed
| Settled (a : Settlement).

(** The component with the number of calls to the search service that have
    not settled yet. *)
Record Running : Type :=
  { comp : State; pending : nat }.

Section WithCollaborators.

Variable DEFAULT_PAGINATION_LIMIT : nat.
Variable decodeURIComponentSafe : string -> string.
Variable URLSearchParams_new : string -> JS.URLSearchParams.

(** [searchUrl] of [~/utils/routeHelpers]. *)
Variable searchUrl : string -> string.

(** [componentDidMount]. *)
Definition componentDidMount (props : Props) (s : State)
    : State * list (string * SearchParams) :=
  let '(s, r1) :=
    handleTermChange DEFAULT_PAGINATION_LIMIT decodeURIComponentSafe props s in
  if JS.truthy (location_search props) then
    let '(s, r2) :=
      handleQueryChange DEFAULT_PAGINATION_LIMIT URLSearchParams_new props s in
    (s, sent r1 ++ sent r2)
  else (s, sent r1).

(** [componentDidUpdate(prevProps)]. *)
Definition componentDidUpdate (prevProps props : Props) (s : State)
    : State * list (string * SearchParams) :=
  let '(s, r1) :=
    if negb (String.eqb (location_search prevProps) (location_search props))
    then handleQueryChange DEFAULT_PAGINATION_LIMIT URLSearchParams_new props s
    else (s, None) in
  let '(s, r2) :=
    if negb (eq_opt (term prevProps) (term props))
    then handleTermChange DEFAULT_PAGINATION_LIMIT decodeURIComponentSafe
           props s
    else (s, None) in
  (s, sent r1 ++ sent r2).

(** [handleKeyDown]: [key] is [ev.key], [value] is [ev.currentTarget.value],
    [firstDocument] tells whether the ref to the first result is set. *)
Definition handleKeyDown (key value : string) (props : Props)
    (firstDocument : bool) (s : State) : KeyOutcome :=
  if String.eqb key "Enter" then
    let history := [Replace (searchUrl value) (location_search props)] in
    let '(s, r) := fetchResults_start DEFAULT_PAGINATION_LIMIT s in
    {| k_state := s; k_request := r; k_history := history;
       k_preventDefault := false; k_focus := false |}
  else if String.eqb key "Escape" then
    {| k_state := s; k_request := None; k_history := [GoBack];
       k_preventDefault := true; k_focus := false |}
  else if String.eqb key "ArrowDown" then
    {| k_state := s; k_request := None; k_history := [];
       k_preventDefault := true; k_focus := firstDocument |}
  else
    {| k_state := s; k_request := None; k_history := [];
       k_preventDefault := false; k_focus := false |}.

(** One event on a running component.  A settlement with no call pending
    cannot happen and changes nothing. *)
Definition step (r : Running) (e : Event) : Running :=
  let count (x : option (string * SearchParams)) :=
    pending r + length (sent x) in
  match e with
  | QueryChanged props =>
      let '(s, x) :=
        handleQueryChange DEFAULT_PAGINATION_LIMIT URLSearchParams_new props
          (comp r) in
      {| comp := s; pending := count x |}
  | TermChanged props =>
      let '(s, x) :=
        handleTermChange DEFAULT_PAGINATION_LIMIT decodeURIComponentSafe props
          (comp r) in
      {| comp := s; pending := count x |}
  | WaypointEntered =>
      let '(s, x) := loadMoreResults_start DEFAULT_PAGINATION_LIMIT (comp r) in
      {| comp := s; pending := count x |}
  | EnterPressed =>
      let '(s, x) := fetchResults_start DEFAULT_PAGINATION_LIMIT (comp r) in
      {| comp := s; pending := count x |}
  | Settled a =>
      match pending r with
      | 0 => r
      | S n =>
          {| comp := fst (fetchResults_settle DEFAULT_PAGINATION_LIMIT a
                            (comp r));
             pending := n |}
      end
  end.

(** The component after a sequence of events, from its construction. *)
Definition run (props : Props) (events : list Event) : Running :=
  fold_left step events
    {| comp := initialState decodeURIComponentSafe props; pending := 0 |}.

(** A value of a filter parameter as a request may carry it. *)
Definition filter_ok (v : option string) : Prop :=
  match v with
  | Some x => x <> ""
  | None => True
  end.

(** A request as the component builds it. *)
Definition well_formed_request (c : string * SearchParams) : Prop :=
  fst c <> ""
  /\ p_limit (snd c) = DEFAULT_PAGINATION_LIMIT
  /\ p_includeDrafts (snd c) = true
  /\ (exists k, p_offset (snd c) = k * DEFAULT_PAGINATION_LIMIT)
  /\ filter_ok (p_dateFilter (snd c))
  /\ filter_ok (p_collectionId (snd c))
  /\ filter_ok (p_userId (snd c)).

(** What every event keeps true of a running component. *)
Definition invariant (r : Running) : Prop :=
  let s := comp r in
  (exists k, offset s = k * DEFAULT_PAGINATION_LIMIT)
  /\ Forall well_formed_request (searchCalls s)
  /\ length (searchesAdded s) + pending r <= length (searchCalls s)
  /\ lastParams s = snd <$> last (searchCalls s)
  /\ (lastQuery s = "" \/ Some (lastQuery s) = fst <$> last (searchCalls s)).

(** The parameters of a first page without filters. *)
Definition firstPageNoFilters : SearchParams :=
  {| p_offset := 0;
     p_limit := DEFAULT_PAGINATION_LIMIT;
     p_dateFilter := None;
     p_includeArchived := false;
     p_includeDrafts := true;
     p_collectionId := None;
     p_userId := None |}.

End WithCollaborators.

End SearchComponent.

(** * Properties *)

(** ** Strings *)

Module JSFacts.

Lemma string_length_app (a b : string) :
  String.length (a +:+ b) = String.length a + String.length b.
Proof.
  induction a as [|c a IH]; [reflexivity |].
  change (String c a +:+ b) with (String c (a +:+ b)).
  simpl. now rewrite IH.
Qed.

Lemma append_cons (c : ascii) (a b : string) :
  String c a +:+ b = String c (a +:+ b).
Proof. reflexivity. Qed.

Lemma substring_full (t : string) :
  String.substring 0 (String.length t) t = t.
Proof. induction t as [|c t IH]; simpl; [reflexivity | now rewrite IH]. Qed.

Lemma substring_app_drop (front t : string) :
  String.substring (String.length front) (String.length t) (front +:+ t) = t.
Proof.
  induction front as [|c front IH].
  - change ("" +:+ t) with t. apply substring_full.
  - exact IH.
Qed.

Lemma substring_split (s : string) (n : nat) :
  n <= String.length s ->
  s = String.substring 0 n s +:+ String.substring n (String.length s - n) s.
Proof.
  revert n. induction s as [|c s IH]; intros n Hn.
  - destruct n; [reflexivity | simpl in Hn; lia].
  - destruct n as [|n].
    + rewrite Nat.sub_0_r, substring_full. reflexivity.
    + cbn [String.substring String.length Nat.sub].
      rewrite append_cons. f_equal. apply IH. simpl in Hn. lia.
Qed.

(** [endsWith] decides the suffix relation. *)
Lemma endsWith_spec (s t : string) :
  JS.endsWith s t = true <-> exists front, s = front +:+ t.
Proof.
  unfold JS.endsWith. split.
  - destruct (Nat.leb_spec (String.length t) (String.length s)) as [Hle|Hlt];
      [|discriminate].
    intros Heq. apply String.eqb_eq in Heq.
    exists (String.substring 0 (String.length s - String.length t) s).
    rewrite (substring_split s (String.length s - String.length t)) at 1
      by lia.
    f_equal.
    replace (String.length s - (String.length s - String.length t))
      with (String.length t) by lia.
    exact Heq.
  - intros [front ->]. rewrite string_length_app.
    replace (String.length t <=? String.length front + String.length t)%nat
      with true by (symmetry; apply Nat.leb_le; lia).
    replace (String.length front + String.length t - String.length t)
      with (String.length front) by lia.
    rewrite substring_app_drop. apply String.eqb_refl.
Qed.

Lemma endsWith_empty (s : string) : JS.endsWith s "" = true.
Proof.
  apply endsWith_spec. exists s.
  induction s as [|c s IH]; [reflexivity |].
  rewrite append_cons. now rewrite <- IH.
Qed.

Lemma truthy_true (s : string) : JS.truthy s = true <-> s <> "".
Proof.
  unfold JS.truthy. rewrite negb_true_iff. split.
  - intros H ->. now rewrite String.eqb_refl in H.
  - intros H. apply String.eqb_neq. exact H.
Qed.

Lemma truthy_false (s : string) : JS.truthy s = false <-> s = "".
Proof.
  unfold JS.truthy. rewrite negb_false_iff. apply String.eqb_eq.
Qed.

End JSFacts.

(** ** The shared-document scene *)

Module SharedFacts.
Import Shared.

(** Induction over a tree with the hypothesis for every child. *)
Lemma NavigationNode_forall_ind (P : NavigationNode -> Prop) :
  (forall i u cs, Forall P cs -> P (Node i u cs)) ->
  forall n, P n.
Proof.
  intros step. fix IH 1. intros [i u cs]. apply step.
  induction cs as [|c cs IHcs]; constructor; [apply IH | exact IHcs].
Qed.

Lemma findInTree_unfold (slug : string) (i u : string)
    (cs : list NavigationNode) (d : option string) :
  findInTree slug (Node i u cs) d =
  if JS.endsWith u slug then (true, Some i) else findInChildren slug cs d.
Proof.
  simpl. destruct (JS.endsWith u slug); [reflexivity |].
  revert d. induction cs as [|c cs IH]; intros d; simpl; [reflexivity |].
  destruct (findInTree slug c d) as [[|] d']; [reflexivity | apply IH].
Qed.

Lemma preorder_unfold (i u : string) (cs : list NavigationNode) :
  preorder (Node i u cs) = Node i u cs :: preorder_forest cs.
Proof.
  reflexivity.
Qed.

Lemma find_app {A : Type} (f : A -> bool) (l1 l2 : list A) :
  List.find f (l1 ++ l2) =
  match List.find f l1 with
  | Some x => Some x
  | None => List.find f l2
  end.
Proof.
  induction l1 as [|a l1 IH]; simpl; [reflexivity |].
  destruct (f a); [reflexivity | exact IH].
Qed.

(** [findInTree] visits the nodes in pre-order and stops at the first
    match; without a match [documentId] keeps its value. *)
Lemma findInTree_find (slug : string) (n : NavigationNode) :
  forall d, findInTree slug n d
            = report (List.find (matches slug) (preorder n)) d.
Proof.
  induction n as [i u cs IHcs] using NavigationNode_forall_ind.
  intros d. rewrite findInTree_unfold, preorder_unfold.
  cbn [List.find]. unfold matches at 1. cbn [url].
  destruct (JS.endsWith u slug); [reflexivity |].
  revert d. induction IHcs as [|c cs Hc _ IH]; intros d; simpl;
    [reflexivity |].
  rewrite Hc, find_app.
  destruct (List.find (matches slug) (preorder c)) as [hit|]; simpl;
    [reflexivity | apply IH].
Qed.

Lemma find_first_match {A : Type} (f : A -> bool) (l : list A) (x : A) :
  List.find f l = Some x ->
  first_match (fun y => f y = true) l x.
Proof.
  induction l as [|a l IH]; simpl; [discriminate |].
  destruct (f a) eqn:Hfa.
  - intros [= ->]. exists [], l.
    split; [reflexivity | split; [exact Hfa | constructor]].
  - intros Hfind. destruct (IH Hfind) as (before & after & -> & Hx & Hb).
    exists (a :: before), after.
    split; [reflexivity | split; [exact Hx |]].
    constructor; [congruence | exact Hb].
Qed.

Lemma find_none_Forall {A : Type} (f : A -> bool) (l : list A) :
  List.find f l = None -> Forall (fun y => f y <> true) l.
Proof.
  induction l as [|a l IH]; simpl; [constructor |].
  destruct (f a) eqn:Hfa; [discriminate |].
  intros Hfind. constructor; [congruence | apply IH, Hfind].
Qed.

Lemma first_match_ext {A : Type} (P Q : A -> Prop) (l : list A) (x : A) :
  (forall y, P y <-> Q y) -> first_match P l x -> first_match Q l x.
Proof.
  intros HPQ (before & after & -> & Hx & Hb).
  exists before, after. split; [reflexivity | split; [now apply HPQ |]].
  eapply Forall_impl; [exact Hb |]. intros y Hy HQ. now apply Hy, HPQ.
Qed.

(** The first match of a list is unique. *)
Lemma first_match_unique {A : Type} (P : A -> Prop) (l : list A) (x y : A) :
  first_match P l x -> first_match P l y -> x = y.
Proof.
  intros (b1 & a1 & -> & Hx & Hb1) (b2 & a2 & Heq & Hy & Hb2).
  revert b2 Heq Hb2. induction b1 as [|z b1 IH]; intros b2 Heq Hb2.
  - destruct b2 as [|z b2]; simpl in Heq; [congruence |].
    injection Heq as -> _. inversion Hb2; subst. contradiction.
  - destruct b2 as [|z' b2]; simpl in Heq.
    + injection Heq as -> _. inversion Hb1; subst. contradiction.
    + injection Heq as -> Heq. inversion Hb1; inversion Hb2; subst.
      eapply IH; eassumption.
Qed.

Lemma useDocumentId_find (slug : string) (response : option Response) :
  useDocumentId slug response
  = match sharedTreeOf response with
    | Some t => id <$> List.find (matches slug) (preorder t)
    | None => None
    end.
Proof.
  unfold useDocumentId, sharedTreeOf.
  destruct response as [r|]; [|reflexivity].
  destruct (sharedTree r) as [t|]; [|reflexivity].
  rewrite findInTree_find.
  now destruct (List.find (matches slug) (preorder t)).
Qed.

Lemma matches_ends_with (slug : string) (n : NavigationNode) :
  matches slug n = true <-> ends_with (url n) slug.
Proof. apply JSFacts.endsWith_spec. Qed.

Lemma first_match_holds {A : Type} (P : A -> Prop) (l : list A) (x : A) :
  first_match P l x -> Exists P l.
Proof.
  intros (before & after & -> & Hx & _).
  apply Exists_app. right. now constructor.
Qed.

Lemma Forall_not_Exists {A : Type} (P : A -> Prop) (l : list A) :
  Forall (fun y => ~ P y) l -> Exists P l -> False.
Proof.
  intros Hall Hex. induction Hex as [x l Hx|x l _ IH];
    inversion Hall; subst; [contradiction | now apply IH].
Qed.

(** The code's result is the one the specification's wording picks. *)
Lemma useDocumentId_resolves (slug : string) (response : option Response) :
  resolves_to slug (sharedTreeOf response) (useDocumentId slug response).
Proof.
  rewrite useDocumentId_find. unfold resolves_to.
  destruct (sharedTreeOf response) as [t|]; [|exact I].
  destruct (List.find (matches slug) (preorder t)) as [n|] eqn:Hfind; simpl.
  - exists n. split; [|reflexivity].
    apply find_first_match in Hfind.
    eapply first_match_ext; [|exact Hfind].
    intros y. apply matches_ends_with.
  - apply find_none_Forall in Hfind.
    eapply Forall_impl; [exact Hfind |].
    intros y Hy Hends. now apply Hy, matches_ends_with.
Qed.

(** The specification's wording picks at most one result. *)
Lemma resolves_to_functional (slug : string) (tree : option NavigationNode)
    (r1 r2 : option string) :
  resolves_to slug tree r1 -> resolves_to slug tree r2 -> r1 = r2.
Proof.
  unfold resolves_to.
  destruct tree as [t|], r1 as [i1|], r2 as [i2|]; try tauto.
  - intros (n1 & H1 & <-) (n2 & H2 & <-).
    f_equal. f_equal. eapply first_match_unique; eassumption.
  - intros (n1 & H1 & _) Hnone. exfalso.
    eapply Forall_not_Exists; [exact Hnone |].
    eapply first_match_holds, H1.
  - intros Hnone (n2 & H2 & _). exfalso.
    eapply Forall_not_Exists; [exact Hnone |].
    eapply first_match_holds, H2.
Qed.

(** C3. Document-identifier resolution is a depth-first, pre-order search
    over the shared tree: [useDocumentId] returns the id of the first node
    of the pre-order traversal whose url ends with [documentSlug], and
    returns none exactly when no node matches or there is no tree.  On the
    tree [{id:"a", url:"/x", children:[{id:"b", url:"/y/slug"}]}] with
    [documentSlug = "slug"] it returns ["b"]. *)
Theorem C3_useDocumentId_first_preorder_match :
  (forall (slug : string) (response : option Response)
          (result : option string),
      resolves_to slug (sharedTreeOf response) result
      <-> useDocumentId slug response = result)
  /\ (forall (doc : DocumentModel) (tm : option PublicTeam),
        useDocumentId "slug"
          (Some {| document := doc; team := tm;
                   sharedTree := Some example_tree |})
        = Some "b").
Proof.
  split.
  - intros slug response result. split.
    + intros Hres. eapply resolves_to_functional; [|exact Hres].
      apply useDocumentId_resolves.
    + intros <-. apply useDocumentId_resolves.
  - intros doc tm. reflexivity.
Qed.

(** [findInTree] reports a match exactly when some node of the tree has a
    url that ends with the slug. *)
Lemma findInTree_true_iff (slug : string) (t : NavigationNode)
    (d : option string) :
  fst (findInTree slug t d) = true
  <-> Exists (fun n => ends_with (url n) slug) (preorder t).
Proof.
  rewrite findInTree_find.
  destruct (List.find (matches slug) (preorder t)) as [n|] eqn:Hfind; cbn.
  - split; [intros _ | reflexivity].
    apply find_first_match in Hfind.
    eapply first_match_holds, first_match_ext; [|exact Hfind].
    intros y. apply matches_ends_with.
  - split; [discriminate |]. intros Hex. exfalso.
    apply find_none_Forall in Hfind.
    eapply Forall_not_Exists; [|exact Hex].
    eapply Forall_impl; [exact Hfind |].
    intros y Hy Hends. now apply Hy, matches_ends_with.
Qed.

(** A node without children matches exactly when its own url ends with the
    slug; otherwise the search reports nothing and leaves [documentId]. *)
Lemma findInTree_leaf (slug i u : string) (d : option string) :
  (ends_with u slug -> findInTree slug (Node i u []) d = (true, Some i))
  /\ (~ ends_with u slug -> findInTree slug (Node i u []) d = (false, d)).
Proof.
  rewrite findInTree_unfold.
  destruct (JS.endsWith u slug) eqn:E.
  - apply JSFacts.endsWith_spec in E. split; [reflexivity | contradiction].
  - split; [|reflexivity]. intros H. apply JSFacts.endsWith_spec in H.
    congruence.
Qed.

(** C10. The match is a raw string suffix test on the node url, and nothing
    else.  A search finds a node exactly when some node of the tree has a url
    that is some string followed by the slug; a single node matches when its
    url ends with the slug and does not match when it does not.  The test
    knows no path segments: the slug ["oc"] matches the url ["/doc"], and a
    node whose url is any string followed by the slug matches, whatever
    precedes the slug.  It is a suffix test, not a containment or equality
    test: the slug ["do"], which occurs inside ["/doc"], and the slug
    ["x/doc"], which is longer than it, do not match.  With the empty slug
    every url matches, so on every tree the resolution returns the root
    node's id. *)
Theorem C10_suffix_match_ignores_segments :
  JS.endsWith "/doc" "oc" = true
  /\ (forall (doc : DocumentModel) (tm : option PublicTeam),
        useDocumentId "oc"
          (Some {| document := doc; team := tm;
                   sharedTree := Some (Node "root" "/doc" []) |})
        = Some "root")
  /\ (forall (front slug i : string) (cs : list NavigationNode)
             (d : option string),
        findInTree slug (Node i (front +:+ slug) cs) d = (true, Some i))
  /\ (forall u : string, JS.endsWith u "" = true)
  /\ (forall (doc : DocumentModel) (tm : option PublicTeam)
             (t : NavigationNode),
        useDocumentId ""
          (Some {| document := doc; team := tm; sharedTree := Some t |})
        = Some (id t))
  /\ (forall (slug : string) (t : NavigationNode) (d : option string),
        fst (findInTree slug t d) = true
        <-> Exists (fun n => exists front, url n = front +:+ slug)
              (preorder t))
  /\ (forall (slug i u : string) (d : option string),
        ((exists front, u = front +:+ slug) ->
         findInTree slug (Node i u []) d = (true, Some i))
        /\ (~ (exists front, u = front +:+ slug) ->
            findInTree slug (Node i u []) d = (false, d)))
  /\ (forall (doc : DocumentModel) (tm : option PublicTeam),
        useDocumentId "do"
          (Some {| document := doc; team := tm;
                   sharedTree := Some (Node "root" "/doc" []) |})
        = None
        /\ useDocumentId "x/doc"
             (Some {| document := doc; team := tm;
                      sharedTree := Some (Node "root" "/doc" []) |})
           = None).
Proof.
  split; [reflexivity |].
  split; [intros; reflexivity |].
  split.
  { intros front slug i cs d. rewrite findInTree_unfold.
    replace (JS.endsWith (front +:+ slug) slug) with true; [reflexivity |].
    symmetry. apply JSFacts.endsWith_spec. now exists front. }
  split; [apply JSFacts.endsWith_empty |].
  split.
  { intros doc tm [i u cs]. unfold useDocumentId. cbn [sharedTree].
    rewrite findInTree_unfold, JSFacts.endsWith_empty. reflexivity. }
  split; [exact findInTree_true_iff |].
  split; [exact findInTree_leaf |].
  intros doc tm. split; reflexivity.
Qed.

Lemma strict_eq_true (a : option string) (b : string) :
  JS.strict_eq a b = true <-> a = Some b.
Proof.
  destruct a as [v|]; simpl.
  - rewrite String.eqb_eq. split; [now intros -> | now intros [= ->]].
  - split; discriminate.
Qed.

(** C5. Once an error is recorded the scene renders exactly one of three
    fallbacks, tested in the order of the code: an [OfflineError] gives the
    offline fallback, otherwise an [AuthorizationError] gives the login
    prompt, otherwise the generic not-found fallback; the recorded
    response, the query parameters and the capability set play no part. *)
Theorem C5_error_classification :
  forall (props : Props) (r : option Response) (e : FetchError)
         (can : Policy) (jar : gmap string string),
    let view :=
      fst (SharedDocumentScene props {| response := r; error := Some e |}
             can jar) in
    view = (if instanceof_OfflineError e then ErrorOffline
            else if instanceof_AuthorizationError e then Login
            else Error404)
    /\ (view = ErrorOffline <-> e = OfflineError)
    /\ (view = Login <-> e = AuthorizationError)
    /\ (view = Error404 <-> exists m, e = GenericError m).
Proof.
  intros props r e can jar view. subst view.
  unfold SharedDocumentScene. cbn [error].
  destruct e as [| |m]; cbn; (split; [reflexivity |]);
    repeat split; try discriminate; try reflexivity;
    try (intros [m' Hm]; discriminate).
  intros _. now exists m.
Qed.

(** C9. When the shared-document fetch fails with an [AuthorizationError],
    the render that follows shows the login prompt and leaves the cookie
    [postLoginRedirectPath] set to the path of the current location; the
    cookie jar is otherwise untouched, and it is not part of the scene's
    own state. *)
Theorem C9_authorization_error_persists_path :
  forall (props : Props) (st : SceneState) (can : Policy)
         (jar : gmap string string),
    let st' := fetchData (inr AuthorizationError) st in
    let '(view, jar') := SharedDocumentScene props st' can jar in
    view = Login
    /\ jar' !! "postLoginRedirectPath" = Some (pathname props)
    /\ (forall k : string,
          k <> "postLoginRedirectPath" -> jar' !! k = jar !! k).
Proof.
  intros props st can jar. cbn.
  split; [reflexivity |]. unfold setCookie. split.
  - apply lookup_insert_eq.
  - intros k Hk. apply lookup_insert_ne. congruence.
Qed.

(** C6, as stated, fails: with a response loaded, [edit=true] in the query
    string and the [update] capability granted, a scene that has also
    recorded a fetch error (a later fetch of the same mount failed) renders
    the error fallback, not the redirect. *)
Lemma C6_counterexample :
  let doc := {| doc_id := "d1"; doc_url := "/doc/d1"; doc_title := "T" |} in
  let r := {| document := doc; team := None; sharedTree := None |} in
  let st := fetchData (inr (GenericError "gone"))
              (fetchData (inl r) initialState) in
  let props := {| shareId := "s"; documentSlug := "d1";
                  pathname := "/s/s/doc/d1";
                  searchParams := [("edit", "true")] |} in
  let can := {| update := true; download := true |} in
  response st = Some r
  /\ JS.get (searchParams props) "edit" = Some "true"
  /\ update can = true
  /\ fst (SharedDocumentScene props st can ∅) = Error404.
Proof. cbn. repeat split. Qed.

(** When the scene redirects, and what it shows when it has a response but
    does not redirect. *)
Lemma redirect_cases :
  forall (props : Props) (st : SceneState) (can : Policy)
         (jar : gmap string string),
    let view := fst (SharedDocumentScene props st can jar) in
    (is_redirect view = true
     <-> error st = None
         /\ is_Some (response st)
         /\ JS.get (searchParams props) "edit" = Some "true"
         /\ update can = true)
    /\ (forall to : string,
          view = Redirect to ->
          exists r, response st = Some r /\ to = doc_url (document r))
    /\ (forall r : Response,
          error st = None ->
          response st = Some r ->
          ~ (JS.get (searchParams props) "edit" = Some "true"
             /\ update can = true) ->
          exists wrapper sidebar,
            view = SharedLayout (document r) wrapper sidebar).
Proof.
  intros props st can jar view. subst view.
  unfold SharedDocumentScene.
  destruct st as [resp err]; cbn [error response].
  destruct err as [e|].
  { split; [|split].
    - split.
      + destruct e; cbn; discriminate.
      + intros (Herr & _). discriminate.
    - intros to. destruct e; cbn; discriminate.
    - intros r Herr. discriminate. }
  destruct resp as [r|].
  2:{ split; [|split].
      - split; [cbn; discriminate |].
        intros (_ & [x Hx] & _). discriminate.
      - intros to. cbn. discriminate.
      - intros r _ Hr. discriminate. }
  destruct (JS.strict_eq (JS.get (searchParams props) "edit") "true")
    eqn:Hedit.
  - apply strict_eq_true in Hedit.
    destruct (update can) eqn:Hup; cbn.
    + split; [|split].
      * split; [|reflexivity]. intros _. repeat split; eauto.
      * intros to [= <-]. eauto.
      * intros r' _ _ Hnot. exfalso. apply Hnot. now split.
    + split; [|split].
      * split; [discriminate |]. intros (_ & _ & _ & Hf). discriminate.
      * intros to. discriminate.
      * intros r' _ [= <-] _. eauto.
  - assert (Hne : JS.get (searchParams props) "edit" <> Some "true").
    { intros H. apply strict_eq_true in H. congruence. }
    cbn. split; [|split].
    + split; [discriminate |]. intros (_ & _ & Hf & _). contradiction.
    + intros to. discriminate.
    + intros r' _ [= <-] _. eauto.
Qed.

(** C6, amended. The scene returns the redirect to the document's
    canonical url if and only if no fetch error is recorded, a response is
    loaded, the query parameter [edit] equals ["true"] and the capability
    set grants [update]; the target is the loaded document's url.  With no
    error and a response, but without [edit=true] or without [update], the
    read-only shared layout of that document is rendered.  With an error
    recorded the fallback of that error is rendered, and with neither an
    error nor a response the loading state. *)
Theorem C6_redirect_iff_no_error_and_three_conditions :
  forall (props : Props) (st : SceneState) (can : Policy)
         (jar : gmap string string),
    let view := fst (SharedDocumentScene props st can jar) in
    (is_redirect view = true
     <-> error st = None
         /\ is_Some (response st)
         /\ JS.get (searchParams props) "edit" = Some "true"
         /\ update can = true)
    /\ (forall to : string,
          view = Redirect to ->
          exists r, response st = Some r /\ to = doc_url (document r))
    /\ (forall r : Response,
          error st = None ->
          response st = Some r ->
          ~ (JS.get (searchParams props) "edit" = Some "true"
             /\ update can = true) ->
          exists wrapper sidebar,
            view = SharedLayout (document r) wrapper sidebar)
    /\ (forall e : FetchError,
          error st = Some e ->
          view = (if instanceof_OfflineError e then ErrorOffline
                  else if instanceof_AuthorizationError e then Login
                  else Error404))
    /\ (error st = None -> response st = None -> view = Loading).
Proof.
  intros props st can jar view.
  destruct (redirect_cases props st can jar) as (Hiff & Hto & Hlayout).
  split; [exact Hiff |]. split; [exact Hto |]. split; [exact Hlayout |].
  subst view. unfold SharedDocumentScene. split.
  - intros e ->. now destruct e.
  - intros -> ->. reflexivity.
Qed.

End SharedFacts.

(** ** The search scene *)

Module SearchFacts.
Import Search.

Lemma eq_opt_spec (a b : option string) : eq_opt a b = true <-> a = b.
Proof.
  destruct a as [x|], b as [y|]; simpl;
    try (split; [discriminate | congruence]); [|tauto].
  rewrite String.eqb_eq. split; congruence.
Qed.

(** On the objects [fetchResults] builds, lodash's deep equality is
    equality of the parameter sets. *)
Lemma isEqual_spec (a : SearchParams) (b : option SearchParams) :
  isEqual a b = true <-> b = Some a.
Proof.
  destruct b as [b|]; simpl; [|split; discriminate].
  rewrite !andb_true_iff, !Nat.eqb_eq, !eq_opt_spec, !Bool.eqb_true_iff.
  destruct a, b; simpl. split.
  - intros ((((((-> & ->) & ->) & ->) & ->) & ->) & ->). reflexivity.
  - intros [= -> -> -> -> -> -> ->]. repeat split.
Qed.

Section WithCollaborators.

Variable DEFAULT_PAGINATION_LIMIT : nat.
Variable decodeURIComponentSafe : string -> string.
Variable URLSearchParams_new : string -> JS.URLSearchParams.

Local Abbreviation pageSize := DEFAULT_PAGINATION_LIMIT.
Local Abbreviation buildParams := (buildParams pageSize).
Local Abbreviation fetchResults_start := (fetchResults_start pageSize).
Local Abbreviation fetchResults_settle := (fetchResults_settle pageSize).
Local Abbreviation fetchResults := (fetchResults pageSize).
Local Abbreviation guard := (guard pageSize).
Local Abbreviation callArgs := (callArgs pageSize).

Lemma guard_true (s : State) :
  guard s = true
  <-> lastQuery s = query s /\ lastParams s = Some (buildParams s).
Proof.
  unfold Search.guard. now rewrite andb_true_iff, String.eqb_eq, isEqual_spec.
Qed.

(** The three ways through [fetchResults] up to the [await]. *)
Lemma start_empty (s : State) :
  JS.truthy (query s) = false ->
  fetchResults_start s
  = (set_lastQuery (query s) (set_isLoading false s), None).
Proof. intros H. unfold Search.fetchResults_start. now rewrite H. Qed.

Lemma start_skip (s : State) :
  JS.truthy (query s) = true -> guard s = true ->
  fetchResults_start s = (set_isLoading false s, None).
Proof.
  intros H G. unfold Search.fetchResults_start, Search.guard in *.
  now rewrite H, G.
Qed.

Lemma start_call (s : State) :
  JS.truthy (query s) = true -> guard s = false ->
  fetchResults_start s
  = (documents_search (query s) (buildParams s)
       (set_lastParams (buildParams s)
          (set_lastQuery (query s) (set_isLoading true s))),
     Some (query s, buildParams s)).
Proof.
  intros H G. unfold Search.fetchResults_start, Search.guard in *.
  now rewrite H, G.
Qed.

(** A call to the service is pending exactly when the query is non-empty
    and the guard does not hold. *)
Lemma start_pending (s : State) :
  is_Some (snd (fetchResults_start s))
  <-> JS.truthy (query s) = true /\ guard s = false.
Proof.
  destruct (JS.truthy (query s)) eqn:H.
  - destruct (guard s) eqn:G.
    + rewrite start_skip by assumption. cbn. split.
      * intros [x Hx]. discriminate.
      * intros [_ Hf]. discriminate.
    + rewrite start_call by assumption. cbn. split; eauto.
  - rewrite start_empty by assumption. cbn. split.
    + intros [x Hx]. discriminate.
    + intros [Hf _]. discriminate.
Qed.

(** The code after the [await], on success. *)
Lemma settle_resolves (results : list SearchResult) (uuid ts : string)
    (s s' : State) :
  s' = fst (fetchResults_settle (Resolves results uuid ts) s) ->
  snd (fetchResults_settle (Resolves results uuid ts) s) = Returned
  /\ isLoading s' = false
  /\ lastQuery s' = lastQuery s
  /\ lastParams s' = lastParams s
  /\ query s' = query s
  /\ params s' = params s
  /\ searchCalls s' = searchCalls s
  /\ (0 < pageSize -> pageSize <= length results ->
      allowLoadMore s' = allowLoadMore s
      /\ offset s' = offset s + pageSize)
  /\ (length results < pageSize ->
      allowLoadMore s' = false /\ offset s' = offset s).
Proof.
  intros ->. unfold Search.fetchResults_settle. cbv zeta.
  destruct (Nat.eqb_spec (length results) 0) as [E0|N0];
    destruct (Nat.ltb_spec (length results) pageSize) as [Hlt|Hge];
    cbn; repeat split; try reflexivity; intros;
    try (exfalso; lia); repeat split; try reflexivity; lia.
Qed.

(** The code after the [await], on failure. *)
Lemma settle_rejects (err : string) (s : State) :
  fetchResults_settle (Rejects err) s
  = (set_isLoading false (set_lastQuery "" s), Thrown err).
Proof. reflexivity. Qed.

(** A whole call, by the way taken through the routine. *)
Lemma fetchResults_empty (a : Settlement) (s : State) :
  JS.truthy (query s) = false ->
  fetchResults a s
  = (set_lastQuery (query s) (set_isLoading false s), Returned).
Proof. intros H. unfold Search.fetchResults. now rewrite start_empty. Qed.

Lemma fetchResults_skip (a : Settlement) (s : State) :
  JS.truthy (query s) = true -> guard s = true ->
  fetchResults a s = (set_isLoading false s, Returned).
Proof. intros H G. unfold Search.fetchResults. now rewrite start_skip. Qed.

Lemma fetchResults_call (a : Settlement) (s : State) :
  JS.truthy (query s) = true -> guard s = false ->
  fetchResults a s
  = fetchResults_settle a (fst (fetchResults_start s)).
Proof.
  intros H G. unfold Search.fetchResults. now rewrite start_call.
Qed.

(** Reaching the [await] leaves the pagination state and the arguments of
    the next call as they were, and records the arguments sent. *)
Lemma start_call_state (s s1 : State) :
  JS.truthy (query s) = true -> guard s = false ->
  s1 = fst (fetchResults_start s) ->
  offset s1 = offset s
  /\ allowLoadMore s1 = allowLoadMore s
  /\ query s1 = query s
  /\ params s1 = params s
  /\ lastQuery s1 = query s
  /\ lastParams s1 = Some (buildParams s)
  /\ searchCalls s1 = searchCalls s ++ [(query s, buildParams s)].
Proof. intros H G ->. rewrite start_call by assumption. now cbn. Qed.

(** A call on a state whose guard holds does nothing but clear
    [isLoading]. *)
Lemma skipped_call (a : Settlement) (s s' : State) :
  JS.truthy (query s) = true -> guard s = true ->
  s' = fst (fetchResults a s) ->
  snd (fetchResults_start s) = None
  /\ snd (fetchResults a s) = Returned
  /\ searchCalls s' = searchCalls s
  /\ offset s' = offset s
  /\ allowLoadMore s' = allowLoadMore s
  /\ lastQuery s' = lastQuery s
  /\ lastParams s' = lastParams s
  /\ isLoading s' = false.
Proof.
  intros H G ->. rewrite fetchResults_skip, start_skip by assumption.
  now cbn.
Qed.

(** C1. A fetch that reaches the search service with a non-empty query
    and succeeds: with at least [pageSize] results [allowLoadMore] keeps
    its value (so stays true when it was) and [offset] grows by exactly
    [pageSize]; with fewer results, none included, [allowLoadMore]
    becomes false and [offset] is unchanged.  The page size is a positive
    constant. *)
Theorem C1_page_accounting :
  forall (s : State) (results : list SearchResult) (uuid ts : string),
    0 < pageSize ->
    JS.truthy (query s) = true ->
    is_Some (snd (fetchResults_start s)) ->
    let s' := fst (fetchResults (Resolves results uuid ts) s) in
    snd (fetchResults (Resolves results uuid ts) s) = Returned
    /\ (pageSize <= length results ->
        allowLoadMore s' = allowLoadMore s
        /\ offset s' = offset s + pageSize)
    /\ (length results < pageSize ->
        allowLoadMore s' = false /\ offset s' = offset s).
Proof.
  intros s results uuid ts Hpos Hq Hpending.
  apply start_pending in Hpending as [_ G].
  rewrite fetchResults_call by assumption.
  destruct (start_call_state s _ Hq G eq_refl) as (Hoff & Hmore & _).
  destruct (settle_resolves results uuid ts (fst (fetchResults_start s)) _ eq_refl)
    as (Hret & _ & _ & _ & _ & _ & _ & Hfull & Hshort).
  cbv zeta. split; [exact Hret |]. split.
  - intros Hge. destruct (Hfull Hpos Hge) as [E1 E2].
    now rewrite E1, E2, Hoff, Hmore.
  - intros Hlt. destruct (Hshort Hlt) as [E1 E2].
    now rewrite E1, E2, Hoff.
Qed.

(** C2, amended. Two consecutive calls with a non-empty query and
    identical (query, params), the first of which did not end in a
    failure of the search service (it returned, or it is still waiting
    for the service): the second call makes no call to the search
    service, leaves [offset], [allowLoadMore], [lastQuery] and
    [lastParams] unchanged, and sets [isLoading] to false. *)
Theorem C2_identical_call_is_skipped :
  forall (s s1 : State) (a1 a2 : Settlement),
    JS.truthy (query s) = true ->
    (s1 = fst (fetchResults_start s)
     \/ (s1 = fst (fetchResults a1 s)
         /\ snd (fetchResults a1 s) = Returned)) ->
    callArgs s1 = callArgs s ->
    let s2 := fst (fetchResults a2 s1) in
    snd (fetchResults_start s1) = None
    /\ snd (fetchResults a2 s1) = Returned
    /\ searchCalls s2 = searchCalls s1
    /\ offset s2 = offset s1
    /\ allowLoadMore s2 = allowLoadMore s1
    /\ lastQuery s2 = lastQuery s1
    /\ lastParams s2 = lastParams s1
    /\ isLoading s2 = false.
Proof.
  intros s s1 a1 a2 Hq Hfirst Hargs.
  assert (Hquery : query s1 = query s) by exact (f_equal fst Hargs).
  assert (Hparams : buildParams s1 = buildParams s)
    by exact (f_equal snd Hargs).
  assert (Hq1 : JS.truthy (query s1) = true) by now rewrite Hquery.
  apply skipped_call; [exact Hq1 | | reflexivity].
  apply guard_true. rewrite Hquery, Hparams.
  destruct (guard s) eqn:G.
  - (* the first call was itself skipped *)
    apply guard_true in G as [GQ GP].
    destruct Hfirst as [-> | [-> _]].
    + rewrite start_skip by (assumption || now apply guard_true).
      now cbn.
    + rewrite fetchResults_skip by (assumption || now apply guard_true).
      now cbn.
  - destruct (start_call_state s _ Hq G eq_refl)
      as (_ & _ & _ & _ & HlastQ & HlastP & _).
    destruct Hfirst as [-> | [-> Hret]]; [now split |].
    rewrite fetchResults_call in Hret |- * by assumption.
    destruct a1 as [results uuid ts | err].
    + destruct (settle_resolves results uuid ts (fst (fetchResults_start s)) _ eq_refl)
        as (_ & _ & E1 & E2 & _).
      rewrite E1, E2. now split.
    + rewrite settle_rejects in Hret. discriminate.
Qed.

(** C4. When the call to the search service fails, the routine throws
    the error on to its caller with [lastQuery] reset to the empty string
    and [isLoading] false, [offset] and [allowLoadMore] being what they
    were; an identical retry therefore reaches the service again. *)
Theorem C4_failure_resets_guard_and_rethrows :
  forall (s : State) (err : string),
    is_Some (snd (fetchResults_start s)) ->
    let s' := fst (fetchResults (Rejects err) s) in
    snd (fetchResults (Rejects err) s) = Thrown err
    /\ lastQuery s' = ""
    /\ isLoading s' = false
    /\ offset s' = offset s
    /\ allowLoadMore s' = allowLoadMore s
    /\ callArgs s' = callArgs s
    /\ snd (fetchResults_start s') = Some (callArgs s).
Proof.
  intros s err Hpending.
  apply start_pending in Hpending as [Hq G].
  rewrite fetchResults_call, settle_rejects, start_call by assumption.
  cbn. repeat split.
  set (s' := set_isLoading false _).
  assert (Hq' : JS.truthy (query s') = true) by exact Hq.
  assert (G' : guard s' = false).
  { unfold Search.guard. subst s'. cbn.
    apply JSFacts.truthy_true in Hq.
    destruct (query s); [congruence | reflexivity]. }
  rewrite start_call by assumption. reflexivity.
Qed.


(** C8. With the empty query the routine makes no call to the search
    service, sets [isLoading] to false, records the empty string as the
    last query, and leaves [offset] and [allowLoadMore] unchanged. *)
Theorem C8_empty_query_no_fetch :
  forall (s : State) (a : Settlement),
    query s = "" ->
    let s' := fst (fetchResults a s) in
    snd (fetchResults_start s) = None
    /\ snd (fetchResults a s) = Returned
    /\ searchCalls s' = searchCalls s
    /\ isLoading s' = false
    /\ lastQuery s' = ""
    /\ offset s' = offset s
    /\ allowLoadMore s' = allowLoadMore s.
Proof.
  intros s a Hq.
  assert (Hfalsy : JS.truthy (query s) = false)
    by now apply JSFacts.truthy_false.
  rewrite fetchResults_empty, start_empty by assumption.
  cbn. now repeat split.
Qed.

End WithCollaborators.

(** C2, as stated, fails: a first call whose service call fails, followed
    by a second call with the same query and the same parameters; the
    second call reaches the search service again. *)
Lemma C2_counterexample :
  let s := example_state in
  let s1 := fst (fetchResults 25 (Rejects "offline") s) in
  JS.truthy (query s) = true
  /\ callArgs 25 s1 = callArgs 25 s
  /\ snd (fetchResults_start 25 s1) = Some (callArgs 25 s)
  /\ searchCalls (fst (fetchResults_start 25 s1))
     = searchCalls s1 ++ [callArgs 25 s].
Proof. cbn. repeat split. Qed.

(** The specification's end-to-end case: ["design doc"], page size 10 and
    10 results. *)
Lemma C1_page_accounting_witness :
  let a := Resolves (repeat example_result 10) "id-1" "2023-01-01" in
  let s' := fst (fetchResults 10 a example_state) in
  snd (fetchResults 10 a example_state) = Returned
  /\ (10 <= length (repeat example_result 10) ->
      allowLoadMore s' = allowLoadMore example_state
      /\ offset s' = offset example_state + 10)
  /\ (length (repeat example_result 10) < 10 ->
      allowLoadMore s' = false /\ offset s' = offset example_state).
Proof.
  apply (C1_page_accounting 10 example_state);
    [lia | reflexivity | eexists; reflexivity].
Defined.

(** A first call answered with a short page, then the same call again. *)
Lemma C2_identical_call_is_skipped_witness :
  let a1 := Resolves [example_result] "id-1" "2023-01-01" in
  let a2 := Resolves [example_result] "id-2" "2023-01-02" in
  let s1 := fst (fetchResults 10 a1 example_state) in
  let s2 := fst (fetchResults 10 a2 s1) in
  snd (fetchResults_start 10 s1) = None
  /\ snd (fetchResults 10 a2 s1) = Returned
  /\ searchCalls s2 = searchCalls s1
  /\ offset s2 = offset s1
  /\ allowLoadMore s2 = allowLoadMore s1
  /\ lastQuery s2 = lastQuery s1
  /\ lastParams s2 = lastParams s1
  /\ isLoading s2 = false.
Proof.
  apply (C2_identical_call_is_skipped 10 example_state _
           (Resolves [example_result] "id-1" "2023-01-01"));
    [reflexivity | right; split; reflexivity | reflexivity].
Defined.

Lemma C4_failure_resets_guard_and_rethrows_witness :
  let s' := fst (fetchResults 10 (Rejects "offline") example_state) in
  snd (fetchResults 10 (Rejects "offline") example_state) = Thrown "offline"
  /\ lastQuery s' = ""
  /\ isLoading s' = false
  /\ offset s' = offset example_state
  /\ allowLoadMore s' = allowLoadMore example_state
  /\ callArgs 10 s' = callArgs 10 example_state
  /\ snd (fetchResults_start 10 s') = Some (callArgs 10 example_state).
Proof.
  apply (C4_failure_resets_guard_and_rethrows 10 example_state "offline").
  eexists; reflexivity.
Defined.

Lemma C8_empty_query_no_fetch_witness :
  let s := set_query "" example_state in
  let a := Resolves [] "id-1" "2023-01-01" in
  let s' := fst (fetchResults 10 a s) in
  snd (fetchResults_start 10 s) = None
  /\ snd (fetchResults 10 a s) = Returned
  /\ searchCalls s' = searchCalls s
  /\ isLoading s' = false
  /\ lastQuery s' = ""
  /\ offset s' = offset s
  /\ allowLoadMore s' = allowLoadMore s.
Proof.
  apply (C8_empty_query_no_fetch 10 (set_query "" example_state)).
  reflexivity.
Defined.

End SearchFacts.


(** ** The shared-document scene, continued *)

Module SharedSceneFacts.
Import Shared SharedScene.

(** X1. The theme override is the first [theme] query parameter when that is
    exactly ["dark"] or ["light"], and absent in every other case (no such
    parameter, an empty one, any other value). *)
Theorem themeOverride_dark_or_light :
  forall (ps : JS.URLSearchParams) (t : string),
    themeOverride ps = Some t
    <-> JS.get ps "theme" = Some t /\ (t = "dark" \/ t = "light").
Proof.
  intros ps t. unfold themeOverride.
  destruct (JS.get ps "theme") as [v|]; cbn.
  - destruct (String.eqb_spec v "dark") as [->|Hd]; cbn.
    + split; [intros [= <-]; auto | intros [H _]; exact H].
    + destruct (String.eqb_spec v "light") as [->|Hl]; cbn.
      * split; [intros [= <-]; auto | intros [H _]; exact H].
      * split; [discriminate |].
        intros [[= <-] [H|H]]; contradiction.
  - split; [discriminate | intros [H _]; discriminate].
Qed.

Lemma replaceTrailingSlash_cons (c d : ascii) (rest : string) :
  replaceTrailingSlash (String c (String d rest))
  = String c (replaceTrailingSlash (String d rest)).
Proof. reflexivity. Qed.

Lemma replaceTrailingSlash_strips (front : string) :
  replaceTrailingSlash (front +:+ "/") = front.
Proof.
  induction front as [|c front IH]; [reflexivity |].
  rewrite JSFacts.append_cons.
  destruct front as [|d front].
  - reflexivity.
  - rewrite JSFacts.append_cons in *.
    rewrite replaceTrailingSlash_cons. now rewrite IH.
Qed.

Lemma replaceTrailingSlash_keeps (s : string) :
  JS.endsWith s "/" = false -> replaceTrailingSlash s = s.
Proof.
  induction s as [|c s IH]; [reflexivity |].
  intros Hends. destruct s as [|d s].
  - cbn. destruct (Ascii.eqb_spec c "/") as [->|Hc]; [|reflexivity].
    discriminate Hends.
  - rewrite replaceTrailingSlash_cons. f_equal. apply IH.
    destruct (JS.endsWith (String d s) "/") eqn:Hrest; [|reflexivity].
    apply JSFacts.endsWith_spec in Hrest as [front Hfront].
    assert (Hall : JS.endsWith (String c (String d s)) "/" = true).
    { apply JSFacts.endsWith_spec. exists (String c front).
      rewrite JSFacts.append_cons. now rewrite <- Hfront. }
    congruence.
Qed.

(** X2. The path of the canonical link is the pathname without its final
    slash: exactly one slash is dropped when the pathname ends with one (so
    ["/doc//"] gives ["/doc/"] and ["/"] gives the empty path), and a
    pathname that does not end with a slash is kept as it is. *)
Theorem canonicalHref_drops_one_trailing_slash :
  (forall origin front : string,
      canonicalHref origin (front +:+ "/") = origin +:+ front)
  /\ (forall origin pathname : string,
         JS.endsWith pathname "/" = false ->
         canonicalHref origin pathname = origin +:+ pathname)
  /\ canonicalHref "https://o" "/doc//" = "https://o/doc/"
  /\ canonicalHref "https://o" "/" = "https://o".
Proof.
  unfold canonicalHref. split; [|split; [|split; reflexivity]].
  - intros origin front. now rewrite replaceTrailingSlash_strips.
  - intros origin pathname H. now rewrite replaceTrailingSlash_keeps.
Qed.

(** X3. A render writes no cookie unless the recorded error is an
    [AuthorizationError]: in every other state (loading, offline, not found,
    redirect, shared layout) the cookie jar is left as it was. *)
Theorem no_cookie_without_authorization_error :
  forall (props : Props) (st : SceneState) (can : Policy)
         (jar : gmap string string),
    error st <> Some AuthorizationError ->
    snd (SharedDocumentScene props st can jar) = jar.
Proof.
  intros props [resp err] can jar Herr. unfold SharedDocumentScene.
  cbn [error response] in *.
  destruct err as [[| |m]|]; cbn; try reflexivity; [congruence |].
  destruct resp as [r|]; [|reflexivity].
  now destruct (JS.strict_eq _ _ && update can).
Qed.

Lemma no_cookie_without_authorization_error_witness :
  snd (SharedDocumentScene example_props
         (afterFetches [inr OfflineError])
         {| update := true; download := false |} ∅) = ∅.
Proof.
  apply (no_cookie_without_authorization_error example_props
           (afterFetches [inr OfflineError])).
  discriminate.
Defined.

Lemma fold_fetchData_successes (outcomes : list (Response + FetchError))
    (st : SceneState) :
  forallb succeeded outcomes = true ->
  error (fold_left (fun st o => fetchData o st) outcomes st) = error st.
Proof.
  revert st. induction outcomes as [|o outcomes IH]; intros st Hall;
    [reflexivity |].
  cbn in Hall. apply andb_true_iff in Hall as [Ho Hall].
  cbn [fold_left]. rewrite IH by exact Hall.
  destruct o as [r|e]; [reflexivity | discriminate].
Qed.

(** X4. A failed fetch is never forgotten: once a fetch of the mounted scene
    has failed, the scene keeps rendering the fallback of that failure, whatever
    was fetched before it and however many fetches succeed after it. *)
Theorem error_outlives_later_successes :
  forall (props : Props) (can : Policy) (jar : gmap string string)
         (before after : list (Response + FetchError)) (e : FetchError),
    forallb succeeded after = true ->
    fst (SharedDocumentScene props (afterFetches (before ++ inr e :: after))
           can jar)
    = fallbackFor e.
Proof.
  intros props can jar before after e Hall.
  assert (Herr : error (afterFetches (before ++ inr e :: after)) = Some e).
  { unfold afterFetches. rewrite fold_left_app. cbn [fold_left].
    now rewrite fold_fetchData_successes. }
  unfold SharedDocumentScene, fallbackFor. rewrite Herr.
  now destruct e.
Qed.

Lemma error_outlives_later_successes_witness :
  fst (SharedDocumentScene example_props
         (afterFetches ([inl example_response] ++
                        inr AuthorizationError :: [inl example_response]))
         {| update := true; download := true |} ∅)
  = fallbackFor AuthorizationError.
Proof.
  apply (error_outlives_later_successes example_props _ ∅
           [inl example_response] [inl example_response] AuthorizationError).
  reflexivity.
Defined.

(** X5. While no fetch has failed, the scene holds the response of the
    latest fetch and no error, so that the document rendered (or redirected
    to) is the one fetched last. *)
Theorem latest_response_wins :
  forall (earlier : list (Response + FetchError)) (r : Response),
    forallb succeeded earlier = true ->
    afterFetches (earlier ++ [inl r]) = {| response := Some r; error := None |}.
Proof.
  intros earlier r Hall. unfold afterFetches.
  rewrite fold_left_app. cbn [fold_left fetchData]. f_equal.
  now rewrite fold_fetchData_successes.
Qed.

Lemma latest_response_wins_witness :
  afterFetches ([inl example_response] ++ [inl example_response])
  = {| response := Some example_response; error := None |}.
Proof.
  apply (latest_response_wins [inl example_response] example_response).
  reflexivity.
Defined.

Lemma first_match_In {A : Type} (P : A -> Prop) (l : list A) (x : A) :
  first_match P l x -> In x l /\ P x.
Proof.
  intros (before & after & -> & Hx & _). split; [|exact Hx].
  apply in_or_app. right. now left.
Qed.

(** X6. The effect that marks the active document either leaves the ui
    store's pointer as it was, or sets it to the non-empty id of a node of
    the shared tree whose url ends with the slug. *)
Theorem setActiveDocument_only_matching_node :
  forall (slug : string) (response : option Response)
         (active : option string),
    let active' :=
      setActiveDocumentEffect (useDocumentId slug response) active in
    active' = active
    \/ exists (t n : NavigationNode),
         sharedTreeOf response = Some t
         /\ In n (preorder t)
         /\ ends_with (url n) slug
         /\ id n <> ""
         /\ active' = Some (id n).
Proof.
  intros slug response active active'. subst active'.
  pose proof (SharedFacts.useDocumentId_resolves slug response) as Hres.
  unfold setActiveDocumentEffect.
  destruct (useDocumentId slug response) as [i|]; [|now left].
  destruct (JS.truthy i) eqn:Hi; [|now left].
  right. unfold resolves_to in Hres.
  destruct (sharedTreeOf response) as [t|]; [|contradiction].
  destruct Hres as (n & Hfirst & <-).
  apply first_match_In in Hfirst as [Hin Hends].
  exists t, n. repeat split; try assumption.
  now apply JSFacts.truthy_true.
Qed.

End SharedSceneFacts.


(** ** The search component, continued *)

Module SearchComponentFacts.
Import Search SearchComponent.

Section WithCollaborators.

Variable DEFAULT_PAGINATION_LIMIT : nat.
Variable decodeURIComponentSafe : string -> string.
Variable URLSearchParams_new : string -> JS.URLSearchParams.
Variable searchUrl : string -> string.

Local Abbreviation pageSize := DEFAULT_PAGINATION_LIMIT.
Local Abbreviation buildParams := (buildParams pageSize).
Local Abbreviation fetchResults_start := (fetchResults_start pageSize).
Local Abbreviation fetchResults_settle := (fetchResults_settle pageSize).
Local Abbreviation fetchResults := (fetchResults pageSize).
Local Abbreviation loadMoreResults_start := (loadMoreResults_start pageSize).
Local Abbreviation guard := (guard pageSize).
Local Abbreviation handleQueryChange :=
  (handleQueryChange pageSize URLSearchParams_new).
Local Abbreviation handleTermChange :=
  (handleTermChange pageSize decodeURIComponentSafe).
Local Abbreviation step :=
  (step pageSize decodeURIComponentSafe URLSearchParams_new).
Local Abbreviation run :=
  (run pageSize decodeURIComponentSafe URLSearchParams_new).
Local Abbreviation invariant := (invariant pageSize).
Local Abbreviation well_formed_request := (well_formed_request pageSize).

(** What reaching the [await], or returning before it, does to a state. *)
Lemma start_effect (s : State) :
  let s' := fst (fetchResults_start s) in
  let x := snd (fetchResults_start s) in
  offset s' = offset s
  /\ allowLoadMore s' = allowLoadMore s
  /\ query s' = query s
  /\ params s' = params s
  /\ searchesAdded s' = searchesAdded s
  /\ ((x = None
       /\ searchCalls s' = searchCalls s
       /\ lastParams s' = lastParams s
       /\ isLoading s' = false
       /\ (lastQuery s' = lastQuery s \/ lastQuery s' = ""))
      \/ (x = Some (query s, buildParams s)
          /\ JS.truthy (query s) = true
          /\ guard s = false
          /\ searchCalls s' = searchCalls s ++ [(query s, buildParams s)]
          /\ lastParams s' = Some (buildParams s)
          /\ isLoading s' = true
          /\ lastQuery s' = query s)).
Proof.
  cbv zeta. destruct (JS.truthy (query s)) eqn:Hq.
  - destruct (guard s) eqn:G.
    + rewrite SearchFacts.start_skip by assumption. cbn.
      repeat split. left. repeat split. now left.
    + rewrite SearchFacts.start_call by assumption. cbn.
      repeat split. right. now repeat split.
  - rewrite SearchFacts.start_empty by assumption. cbn.
    repeat split. left. repeat split. right.
    now apply JSFacts.truthy_false.
Qed.

Lemma or_undefined_ok (a : option string) : filter_ok (JS.or_undefined a).
Proof.
  destruct a as [v|]; cbn; [|exact I].
  destruct (JS.truthy v) eqn:Hv; cbn; [|exact I].
  now apply JSFacts.truthy_true.
Qed.

Lemma buildParams_well_formed (s : State) :
  JS.truthy (query s) = true ->
  (exists k, offset s = k * pageSize) ->
  well_formed_request (query s, buildParams s).
Proof.
  intros Hq Hoff. unfold SearchComponent.well_formed_request. cbn.
  split; [now apply JSFacts.truthy_true |].
  repeat split; try exact Hoff; apply or_undefined_ok.
Qed.

Lemma last_snoc {A : Type} (l : list A) (x : A) : last (l ++ [x]) = Some x.
Proof.
  induction l as [|a l IH]; [reflexivity |].
  cbn. destruct (l ++ [x]) eqn:E; [|exact IH].
  destruct l; discriminate.
Qed.

(** The invariant survives a run of [fetchResults] up to its [await], from
    a state that only differs from an invariant one in the fields the
    handlers assign. *)
Lemma start_invariant (s : State) (n : nat) :
  (exists k, offset s = k * pageSize) ->
  invariant {| comp := s; pending := n |} ->
  invariant {| comp := fst (fetchResults_start s);
               pending := n + length (sent (snd (fetchResults_start s))) |}.
Proof.
  intros Hoff (_ & Hwf & Hcount & HlastP & HlastQ).
  cbn [comp pending] in *.
  destruct (start_effect s) as (Eoff & _ & _ & _ & Eadded & Hcase).
  unfold SearchComponent.invariant. cbn [comp pending].
  rewrite Eoff, Eadded. split; [exact Hoff |].
  destruct Hcase as [(-> & -> & -> & _ & HQ) | (-> & Hq & _ & -> & -> & _ & ->)].
  - cbn. repeat split; try assumption; [lia |].
    destruct HQ as [-> | ->]; [exact HlastQ | now left].
  - cbn. rewrite length_app, last_snoc. cbn.
    repeat split; [| lia | now right].
    apply Forall_app. split; [exact Hwf |].
    constructor; [|constructor]. now apply buildParams_well_formed.
Qed.

Lemma settle_invariant (a : Settlement) (s : State) (n : nat) :
  invariant {| comp := s; pending := S n |} ->
  invariant {| comp := fst (fetchResults_settle a s); pending := n |}.
Proof.
  intros ((k & Hk) & Hwf & Hcount & HlastP & HlastQ).
  cbn [comp pending] in *. unfold SearchComponent.invariant.
  cbn [comp pending].
  destruct a as [results uuid ts | err].
  - unfold Search.fetchResults_settle. cbv zeta.
    destruct (Nat.eqb (length results) 0 || Nat.ltb (length results) pageSize);
      cbn; rewrite ?length_app; cbn.
    + repeat split; try assumption; [now exists k | lia].
    + repeat split; try assumption; [exists (S k); lia | lia].
  - cbn. repeat split; try assumption; [now exists k | lia | now left].
Qed.

Lemma step_invariant (r : Running) (e : Event) :
  invariant r -> invariant (step r e).
Proof.
  intros Hinv. destruct r as [s n].
  assert (Hreset : forall s0,
             searchCalls s0 = searchCalls s ->
             searchesAdded s0 = searchesAdded s ->
             lastParams s0 = lastParams s ->
             lastQuery s0 = lastQuery s ->
             offset s0 = 0 ->
             invariant {| comp := fst (fetchResults_start s0);
                          pending :=
                            n + length (sent (snd (fetchResults_start s0))) |}).
  { intros s0 E1 E2 E3 E4 E5. apply start_invariant.
    - exists 0. now rewrite E5.
    - destruct Hinv as (_ & Hwf & Hcount & HlastP & HlastQ).
      unfold SearchComponent.invariant. cbn [comp pending] in *.
      rewrite E1, E2, E3, E4, E5. repeat split; try assumption. now exists 0. }
  destruct e as [props | props | | | a]; unfold SearchComponent.step;
    cbn [comp pending].
  - unfold Search.handleQueryChange.
    match goal with
    | |- context [Search.fetchResults_start _ ?s0] =>
        specialize (Hreset s0 eq_refl eq_refl eq_refl eq_refl eq_refl);
        destruct (fetchResults_start s0) as [s' x]
    end.
    exact Hreset.
  - unfold Search.handleTermChange.
    match goal with
    | |- context [Search.fetchResults_start _ ?s0] =>
        specialize (Hreset s0 eq_refl eq_refl eq_refl eq_refl eq_refl);
        destruct (fetchResults_start s0) as [s' x]
    end.
    exact Hreset.
  - unfold Search.loadMoreResults_start.
    destruct (negb (allowLoadMore s) || isLoading s).
    + cbn. now rewrite Nat.add_0_r.
    + pose proof (start_invariant s n (proj1 Hinv) Hinv) as H.
      destruct (fetchResults_start s) as [s' x]. exact H.
  - pose proof (start_invariant s n (proj1 Hinv) Hinv) as H.
    destruct (fetchResults_start s) as [s' x]. exact H.
  - destruct n as [|n]; [exact Hinv |]. now apply settle_invariant.
Qed.

Lemma fold_step_invariant (events : list Event) (r : Running) :
  invariant r -> invariant (fold_left step events r).
Proof.
  revert r. induction events as [|e events IH]; intros r Hinv; [exact Hinv |].
  cbn [fold_left]. apply IH. now apply step_invariant.
Qed.

Lemma run_invariant (props : Props) (events : list Event) :
  invariant (run props events).
Proof.
  apply fold_step_invariant.
  unfold SearchComponent.invariant. cbn.
  repeat split; [now exists 0 | constructor | lia | now left].
Qed.

(** X7. Whatever happens to the component (route changes, load-more
    triggers, Enter, responses and failures arriving in any order), [offset]
    is a whole number of pages. *)
Theorem offset_is_whole_pages :
  forall (props : Props) (events : list Event),
    exists k, offset (comp (run props events)) = k * pageSize.
Proof. intros props events. apply (run_invariant props events). Qed.

(** X8. Every call the component makes to the search service has a non-empty
    query, [limit] equal to the page size, [includeDrafts] true, an offset
    that is a whole number of pages, and filters that are absent or
    non-empty: an empty filter value in the query string is never sent. *)
Theorem every_request_is_well_formed :
  forall (props : Props) (events : list Event),
    Forall
      (fun c : string * SearchParams =>
         fst c <> ""
         /\ p_limit (snd c) = pageSize
         /\ p_includeDrafts (snd c) = true
         /\ (exists k, p_offset (snd c) = k * pageSize)
         /\ filter_ok (p_dateFilter (snd c))
         /\ filter_ok (p_collectionId (snd c))
         /\ filter_ok (p_userId (snd c)))
      (searchCalls (comp (run props events))).
Proof. intros props events. apply (run_invariant props events). Qed.

(** X9. The entries handed to the recent-searches store never outnumber the
    calls made to the search service: an entry is added only when a call has
    resolved, and the calls still pending are not counted yet. *)
Theorem recent_searches_follow_calls :
  forall (props : Props) (events : list Event),
    let r := run props events in
    length (searchesAdded (comp r)) + pending r
    <= length (searchCalls (comp r)).
Proof. intros props events. apply (run_invariant props events). Qed.

(** X10. The parameters the dedup guard compares with are always those of
    the most recent call to the search service (none before the first call),
    and the remembered query is that call's query or the empty string. *)
Theorem guard_remembers_last_call :
  forall (props : Props) (events : list Event),
    let s := comp (run props events) in
    lastParams s = snd <$> last (searchCalls s)
    /\ (lastQuery s = "" \/ Some (lastQuery s) = fst <$> last (searchCalls s)).
Proof.
  intros props events.
  destruct (run_invariant props events) as (_ & _ & _ & HP & HQ).
  now split.
Qed.

(** X11. Two successful responses leave the same pagination state in
    whichever order they arrive: [offset], [allowLoadMore], [isLoading] and
    what the dedup guard remembers do not depend on the order. *)
Theorem resolved_responses_commute :
  forall (s : State) (r1 r2 : list SearchResult) (u1 t1 u2 t2 : string),
    let a1 := Resolves r1 u1 t1 in
    let a2 := Resolves r2 u2 t2 in
    let s12 := fst (fetchResults_settle a2 (fst (fetchResults_settle a1 s))) in
    let s21 := fst (fetchResults_settle a1 (fst (fetchResults_settle a2 s))) in
    offset s12 = offset s21
    /\ allowLoadMore s12 = allowLoadMore s21
    /\ isLoading s12 = isLoading s21
    /\ lastQuery s12 = lastQuery s21
    /\ lastParams s12 = lastParams s21
    /\ searchCalls s12 = searchCalls s21.
Proof.
  intros s r1 r2 u1 t1 u2 t2. cbv zeta.
  unfold Search.fetchResults_settle.
  destruct (Nat.eqb (length r1) 0 || Nat.ltb (length r1) pageSize);
    destruct (Nat.eqb (length r2) 0 || Nat.ltb (length r2) pageSize);
    cbn; repeat split; lia.
Qed.

(** X12. [componentDidUpdate] with unchanged term and query string does
    nothing; otherwise every request it sends asks for the first page, and it
    sends at most two. *)
Theorem componentDidUpdate_requests :
  forall (prevProps props : Props) (s : State),
    let updated :=
      componentDidUpdate pageSize decodeURIComponentSafe URLSearchParams_new
        prevProps props s in
    componentDidUpdate pageSize decodeURIComponentSafe URLSearchParams_new
      props props s = (s, [])
    /\ Forall (fun c : string * SearchParams => p_offset (snd c) = 0)
         (snd updated)
    /\ length (snd updated) <= 2.
Proof.
  intros prevProps props s updated. split.
  - unfold componentDidUpdate. rewrite String.eqb_refl.
    replace (eq_opt (term props) (term props)) with true; [reflexivity |].
    symmetry. now apply SearchFacts.eq_opt_spec.
  - subst updated. unfold componentDidUpdate.
    assert (Hq : forall s0,
               Forall (fun c : string * SearchParams => p_offset (snd c) = 0)
                 (sent (snd (handleQueryChange props s0)))
               /\ length (sent (snd (handleQueryChange props s0))) <= 1).
    { intros s0. unfold Search.handleQueryChange.
      match goal with
      | |- context [Search.fetchResults_start _ ?s1] =>
          destruct (start_effect s1) as (_ & _ & _ & _ & _ & [(-> & _)|(-> & _)])
      end; cbn; split; try lia; repeat constructor. }
    assert (Ht : forall s0,
               Forall (fun c : string * SearchParams => p_offset (snd c) = 0)
                 (sent (snd (handleTermChange props s0)))
               /\ length (sent (snd (handleTermChange props s0))) <= 1).
    { intros s0. unfold Search.handleTermChange.
      match goal with
      | |- context [Search.fetchResults_start _ ?s1] =>
          destruct (start_effect s1) as (_ & _ & _ & _ & _ & [(-> & _)|(-> & _)])
      end; cbn; split; try lia; repeat constructor. }
    destruct (negb (String.eqb (location_search prevProps)
                      (location_search props))).
    + specialize (Hq s). destruct (handleQueryChange props s) as [s1 x1].
      cbn [snd] in Hq. destruct Hq as [Hq1 Hq2].
      destruct (negb (eq_opt (term prevProps) (term props))).
      * specialize (Ht s1). destruct (handleTermChange props s1) as [s2 x2].
        cbn [snd] in *. destruct Ht as [Ht1 Ht2]. split.
        -- apply Forall_app. now split.
        -- rewrite length_app. lia.
      * cbn [snd sent]. rewrite app_nil_r. split; [exact Hq1 | lia].
    + destruct (negb (eq_opt (term prevProps) (term props))).
      * specialize (Ht s). destruct (handleTermChange props s) as [s2 x2].
        cbn [snd sent app] in *. destruct Ht as [Ht1 Ht2].
        split; [exact Ht1 | lia].
      * cbn. split; [constructor | lia].
Qed.

(** X13. The key handler reaches the search service only on Enter, and then
    for the query the component already holds, with its current parameters:
    the text typed in the input only goes into the route.  Any other key
    leaves the component's state as it was, and only Escape goes back. *)
Theorem handleKeyDown_fetches_held_query :
  forall (key value : string) (props : Props) (firstDocument : bool)
         (s : State),
    let o :=
      handleKeyDown pageSize searchUrl key value props firstDocument s in
    (forall q p, k_request o = Some (q, p) ->
                 key = "Enter" /\ q = query s /\ p = buildParams s)
    /\ (key <> "Enter" -> k_state o = s)
    /\ (key = "Enter" ->
        k_history o = [Replace (searchUrl value) (location_search props)])
    /\ (k_history o = [GoBack] <-> key = "Escape").
Proof.
  intros key value props firstDocument s o. subst o.
  unfold handleKeyDown.
  destruct (String.eqb_spec key "Enter") as [->|HE].
  - destruct (start_effect s) as (_ & _ & _ & _ & _ & Hcase).
    destruct (fetchResults_start s) as [s' x]. cbn [fst snd] in *.
    cbn. repeat split; try congruence; try discriminate.
    + destruct Hcase as [(-> & _)|(-> & _)]; congruence.
    + destruct Hcase as [(-> & _)|(-> & _)]; congruence.
  - destruct (String.eqb_spec key "Escape") as [->|HS].
    + cbn. repeat split; try discriminate; congruence.
    + destruct (String.eqb_spec key "ArrowDown") as [->|HA]; cbn;
        repeat split; try discriminate; try congruence.
Qed.

Lemma isEqual_no_filters (o l : nat) (df ci ui : option string) (ia : bool) :
  isEqual
    {| p_offset := o; p_limit := l; p_dateFilter := df;
       p_includeArchived := ia; p_includeDrafts := true;
       p_collectionId := ci; p_userId := ui |}
    (Some {| p_offset := o; p_limit := l; p_dateFilter := None;
             p_includeArchived := false; p_includeDrafts := true;
             p_collectionId := None; p_userId := None |})
  = negb (bool_decide (is_Some df) || bool_decide (is_Some ui)
          || bool_decide (is_Some ci) || ia).
Proof.
  cbn. rewrite !Nat.eqb_refl.
  destruct df, ci, ui, ia; reflexivity.
Qed.

(** X14. Mounting with a non-empty term always sends a first request without
    filters.  If the location has a query string that carries filters, a
    second request with those filters follows at once; if it has a query
    string without filters, the second run of the fetch routine is skipped by
    the dedup guard, which clears [isLoading] while the first request is
    still pending, so that the empty-results message shows until results
    arrive. *)
Theorem componentDidMount_requests :
  forall (props : Props),
    let q := decodeURIComponentSafe (default "" (term props)) in
    let s0 := initialState decodeURIComponentSafe props in
    let sq := set_params (URLSearchParams_new (location_search props)) s0 in
    let filtered := JS.truthy (location_search props) && isFiltered sq in
    let mounted :=
      componentDidMount pageSize decodeURIComponentSafe URLSearchParams_new
        props s0 in
    JS.truthy q = true ->
    snd mounted
    = (if filtered
       then [(q, firstPageNoFilters pageSize); (q, buildParams sq)]
       else [(q, firstPageNoFilters pageSize)])
    /\ isLoading (fst mounted)
       = (negb (JS.truthy (location_search props)) || filtered)
    /\ showEmpty (fst mounted) 0
       = (JS.truthy (location_search props) && negb (isFiltered sq)).
Proof.
  intros props q s0 sq filtered mounted Hq.
  subst mounted filtered sq s0.
  unfold componentDidMount, Search.handleTermChange, Search.initialState.
  fold q. clearbody q.
  assert (Hne : String.eqb "" q = false).
  { apply JSFacts.truthy_true in Hq. destruct q; [congruence | reflexivity]. }
  rewrite Hq.
  match goal with
  | |- context [Search.fetchResults_start _ ?st] => set (st1 := st)
  end.
  assert (Hq1 : JS.truthy (query st1) = true) by exact Hq.
  assert (G1 : guard st1 = false).
  { unfold Search.guard. subst st1. cbn -[String.eqb]. now rewrite Hne. }
  rewrite (SearchFacts.start_call pageSize st1 Hq1 G1).
  destruct (JS.truthy (location_search props)) eqn:Hs; cbn [andb negb orb].
  - unfold Search.handleQueryChange.
    match goal with
    | |- context [Search.fetchResults_start _ ?st] => set (st2 := st)
    end.
    assert (Hq2 : JS.truthy (query st2) = true) by exact Hq.
    match goal with
    | |- context [isFiltered ?st] => set (sq := st)
    end.
    assert (G2 : guard st2 = negb (isFiltered sq)).
    { unfold Search.guard. subst st2 st1 sq. cbn -[String.eqb isEqual].
      rewrite String.eqb_refl. cbn [andb].
      apply isEqual_no_filters. }
    destruct (isFiltered sq) eqn:HF; cbn [negb] in G2.
    + rewrite (SearchFacts.start_call pageSize st2 Hq2 G2).
      cbn -[String.eqb JS.truthy]. rewrite ?Hq. now repeat split.
    + rewrite (SearchFacts.start_skip pageSize st2 Hq2 G2).
      cbn -[String.eqb JS.truthy]. unfold showEmpty.
      cbn -[String.eqb JS.truthy]. rewrite ?Hq. now repeat split.
  - cbn -[String.eqb JS.truthy]. now repeat split.
Qed.

(** A second run of the fetch routine right after a first one, with the same
    query and parameters, is skipped and leaves [isLoading] false. *)
Lemma rerun_is_skipped (s1 s3 : State) :
  query s3 = query s1 ->
  buildParams s3 = buildParams s1 ->
  lastQuery s3 = lastQuery (fst (fetchResults_start s1)) ->
  lastParams s3 = lastParams (fst (fetchResults_start s1)) ->
  snd (fetchResults_start s3) = None
  /\ isLoading (fst (fetchResults_start s3)) = false.
Proof.
  intros EQ EP ELQ ELP.
  destruct (JS.truthy (query s1)) eqn:Hq.
  - assert (Hq3 : JS.truthy (query s3) = true) by now rewrite EQ.
    assert (G3 : guard s3 = true).
    { apply SearchFacts.guard_true. rewrite EQ, EP, ELQ, ELP.
      destruct (guard s1) eqn:G.
      - rewrite SearchFacts.start_skip by assumption. cbn.
        now apply SearchFacts.guard_true.
      - rewrite SearchFacts.start_call by assumption. now cbn. }
    rewrite SearchFacts.start_skip by assumption. now cbn.
  - assert (Hq3 : JS.truthy (query s3) = false) by now rewrite EQ.
    rewrite SearchFacts.start_empty by assumption. now cbn.
Qed.

(** X15. A handler that runs twice in a row for the same props sends no
    request the second time, and the second run leaves [isLoading] false,
    also when the request of the first run is still pending. *)
Theorem repeated_handler_sends_nothing :
  forall (props : Props) (s : State),
    let again (h : Props -> State -> State * option (string * SearchParams)) :=
      h props (fst (h props s)) in
    (snd (again handleQueryChange) = None
     /\ isLoading (fst (again handleQueryChange)) = false)
    /\ (snd (again handleTermChange) = None
        /\ isLoading (fst (again handleTermChange)) = false).
Proof.
  intros props s again. subst again. cbv beta. split.
  - unfold Search.handleQueryChange. cbv zeta.
    set (s1 := set_isLoading true (set_allowLoadMore true (set_offset 0
                 (set_params (URLSearchParams_new (location_search props))
                    s)))).
    destruct (start_effect s1) as (_ & _ & EQ & _).
    apply (rerun_is_skipped s1); try reflexivity.
    cbn. exact EQ.
  - unfold Search.handleTermChange. cbv zeta.
    set (s1 := set_isLoading true (set_allowLoadMore true (set_offset 0
                 (set_query _ s)))).
    destruct (start_effect s1) as (_ & _ & _ & EP & _).
    apply (rerun_is_skipped s1); try reflexivity.
    unfold Search.buildParams, dateFilter, includeArchived, collectionId,
      userId.
    cbn [params offset set_isLoading set_allowLoadMore set_offset set_query].
    cbn [params offset set_isLoading set_allowLoadMore set_offset set_query]
      in EP.
    now rewrite EP.
Qed.

(** X16. After a first fetch that succeeded, load-more asks for the next
    page when the page was full (same query and filters, offset larger by the
    page size), and asks for nothing when the page was short. *)
Theorem loadMore_requests_next_page :
  forall (s0 : State) (results : list SearchResult) (uuid ts : string),
    0 < pageSize ->
    is_Some (snd (fetchResults_start s0)) ->
    allowLoadMore s0 = true ->
    let s := fst (fetchResults (Resolves results uuid ts) s0) in
    (pageSize <= length results ->
     snd (loadMoreResults_start s)
     = Some (query s0, buildParams (set_offset (offset s0 + pageSize) s0)))
    /\ (length results < pageSize -> loadMoreResults_start s = (s, None)).
Proof.
  intros s0 results uuid ts Hpos Hpending Hmore.
  apply SearchFacts.start_pending in Hpending as [Hq G].
  rewrite SearchFacts.fetchResults_call by assumption.
  rewrite SearchFacts.start_call by assumption. cbn [fst].
  unfold Search.fetchResults_settle. cbv zeta.
  destruct (Nat.eqb_spec (length results) 0) as [E0|N0];
    destruct (Nat.ltb_spec (length results) pageSize) as [Hlt|Hge];
    cbn [orb fst]; split; intros Hlen; try (exfalso; lia).
  1, 2: unfold Search.loadMoreResults_start; reflexivity.
  unfold Search.loadMoreResults_start.
  match goal with
  | |- context [Search.fetchResults_start _ ?st] => set (s := st)
  end.
  assert (Hs : negb (allowLoadMore s) || isLoading s = false).
  { subst s. cbn. now rewrite Hmore. }
  rewrite Hs.
  assert (Hqs : JS.truthy (query s) = true) by exact Hq.
  assert (Gs : guard s = false).
  { destruct (guard s) eqn:Gs; [|reflexivity].
    apply SearchFacts.guard_true in Gs as [_ Gs].
    subst s. cbn in Gs. injection Gs as Gs. lia. }
  rewrite SearchFacts.start_call by assumption. reflexivity.
Qed.

(** A term change to a non-empty term other than the remembered query
    sends the first page of that term. *)
Lemma term_change_calls (props : Props) (s : State) (q : string) :
  decodeURIComponentSafe (default "" (term props)) = q ->
  JS.truthy q = true ->
  String.eqb (lastQuery s) q = false ->
  let s' := fst (handleTermChange props s) in
  (exists p, snd (handleTermChange props s) = Some (q, p)
             /\ p_offset p = 0
             /\ lastParams s' = Some p
             /\ searchCalls s' = searchCalls s ++ [(q, p)])
  /\ query s' = q
  /\ lastQuery s' = q
  /\ offset s' = 0
  /\ allowLoadMore s' = true
  /\ params s' = params s.
Proof.
  intros D Hq E. unfold Search.handleTermChange. rewrite D, Hq. cbv zeta.
  set (s1 := set_isLoading true (set_allowLoadMore true (set_offset 0
               (set_query q s)))).
  assert (Hq1 : JS.truthy (query s1) = true) by exact Hq.
  assert (G1 : guard s1 = false).
  { unfold Search.guard.
    change (lastQuery s1) with (lastQuery s). change (query s1) with q.
    now rewrite E. }
  rewrite (SearchFacts.start_call pageSize s1 Hq1 G1). cbn [fst snd].
  split; [|now cbn].
  exists (buildParams s1). now cbn.
Qed.

(** X17. Responses are not matched with the request they answer.  When the
    term changes twice and both first pages then arrive full, the response
    for the abandoned term moves [offset] as well, so the next load-more
    asks for the page at twice the page size: the page of the new term at
    offset [pageSize] is never requested. *)
Theorem stale_response_skips_a_page :
  forall (props0 props1 props2 : Props) (full1 full2 : list SearchResult)
         (u1 t1 u2 t2 : string),
    let q1 := decodeURIComponentSafe (default "" (term props1)) in
    let q2 := decodeURIComponentSafe (default "" (term props2)) in
    0 < pageSize ->
    JS.truthy q1 = true ->
    JS.truthy q2 = true ->
    q1 <> q2 ->
    pageSize <= length full1 ->
    pageSize <= length full2 ->
    let r := run props0 [TermChanged props1; TermChanged props2;
                         Settled (Resolves full1 u1 t1);
                         Settled (Resolves full2 u2 t2);
                         WaypointEntered] in
    map (fun c : string * SearchParams => (fst c, p_offset (snd c)))
      (searchCalls (comp r))
    = [(q1, 0); (q2, 0); (q2, pageSize + pageSize)].
Proof.
  intros props0 props1 props2 full1 full2 u1 t1 u2 t2 q1 q2
    Hpos Hq1 Hq2 Hne Hfull1 Hfull2 r.
  subst r.
  assert (D1 : decodeURIComponentSafe (default "" (term props1)) = q1)
    by reflexivity.
  assert (D2 : decodeURIComponentSafe (default "" (term props2)) = q2)
    by reflexivity.
  clearbody q1 q2.
  assert (E1 : String.eqb "" q1 = false).
  { apply JSFacts.truthy_true in Hq1. destruct q1; [congruence | reflexivity]. }
  assert (E12 : String.eqb q1 q2 = false) by now apply String.eqb_neq.
  unfold SearchComponent.run. cbn [fold_left].
  (* the first term change *)
  set (s0 := initialState decodeURIComponentSafe props0).
  destruct (term_change_calls props1 s0 q1 D1 Hq1 E1)
    as ((p1 & X1 & O1 & _ & C1) & _ & LQ1 & _ & _ & PS1).
  unfold SearchComponent.step at 5. cbn [comp pending].
  destruct (handleTermChange props1 s0) as [s1 x1]. cbn [fst snd] in *.
  subst x1. cbn [sent length Nat.add].
  (* the second term change *)
  assert (E12' : String.eqb (lastQuery s1) q2 = false) by now rewrite LQ1.
  destruct (term_change_calls props2 s1 q2 D2 Hq2 E12')
    as ((p2 & X2 & O2 & LP2 & C2) & Q2 & LQ2 & OFF2 & M2 & PS2).
  unfold SearchComponent.step at 4. cbn [comp pending].
  destruct (handleTermChange props2 s1) as [s2 x2]. cbn [fst snd] in *.
  subst x2. cbn [sent length Nat.add].
  (* the two responses *)
  unfold SearchComponent.step at 3. cbn [comp pending].
  destruct (SearchFacts.settle_resolves pageSize full1 u1 t1 s2 _ eq_refl)
    as (_ & _ & LQ3 & LP3 & Q3 & PS3 & C3 & F3 & _).
  destruct (F3 Hpos Hfull1) as [M3 OFF3].
  set (s3 := fst (fetchResults_settle (Resolves full1 u1 t1) s2)) in *.
  unfold SearchComponent.step at 2. cbn [comp pending].
  destruct (SearchFacts.settle_resolves pageSize full2 u2 t2 s3 _ eq_refl)
    as (_ & L4 & LQ4 & LP4 & Q4 & PS4 & C4 & F4 & _).
  destruct (F4 Hpos Hfull2) as [M4 OFF4].
  set (s4 := fst (fetchResults_settle (Resolves full2 u2 t2) s3)) in *.
  (* load more *)
  unfold SearchComponent.step, Search.loadMoreResults_start.
  cbn [comp pending].
  assert (Hgo : negb (allowLoadMore s4) || isLoading s4 = false).
  { rewrite L4, M4, M3, M2. reflexivity. }
  rewrite Hgo.
  assert (Hq4 : JS.truthy (query s4) = true) by now rewrite Q4, Q3, Q2.
  assert (G4 : guard s4 = false).
  { destruct (guard s4) eqn:G; [|reflexivity].
    apply SearchFacts.guard_true in G as [_ G].
    rewrite LP4, LP3, LP2 in G. injection G as G.
    assert (Hoff : p_offset p2 = offset s4) by now rewrite G.
    rewrite O2, OFF4, OFF3, OFF2 in Hoff. lia. }
  rewrite (SearchFacts.start_call pageSize s4 Hq4 G4).
  cbn [comp searchCalls documents_search set_lastParams set_lastQuery
         set_isLoading].
  rewrite C4, C3, C2, C1. subst s0. cbn [Search.initialState searchCalls app].
  cbn [map fst snd]. rewrite O1, O2.
  cbn [Search.buildParams p_offset].
  now rewrite Q4, Q3, Q2, OFF4, OFF3, OFF2.
Qed.

End WithCollaborators.

(** Mounting on [/search/design doc?ref=home]: one request, and the loading
    flag already cleared. *)
Lemma componentDidMount_requests_witness :
  let props := {| term := Some "design doc"; location_search := "?ref=home" |} in
  let parse := fun _ : string => [("ref", "home")] in
  let decode := fun x : string => x in
  let mounted :=
    componentDidMount 10 decode parse props (initialState decode props) in
  snd mounted = [("design doc", firstPageNoFilters 10)]
  /\ isLoading (fst mounted) = false
  /\ showEmpty (fst mounted) 0 = true.
Proof.
  apply (componentDidMount_requests 10 (fun x : string => x)
           (fun _ : string => [("ref", "home")])
           {| term := Some "design doc"; location_search := "?ref=home" |}).
  reflexivity.
Defined.

Lemma loadMore_requests_next_page_witness :
  let a := Resolves (repeat example_result 10) "id-1" "2023-01-01" in
  let s := fst (fetchResults 10 a example_state) in
  (10 <= length (repeat example_result 10) ->
   snd (loadMoreResults_start 10 s)
   = Some (query example_state,
           buildParams 10 (set_offset (offset example_state + 10)
                             example_state)))
  /\ (length (repeat example_result 10) < 10 ->
      loadMoreResults_start 10 s = (s, None)).
Proof.
  apply (loadMore_requests_next_page 10 example_state);
    [lia | eexists; reflexivity | reflexivity].
Defined.

Lemma stale_response_skips_a_page_witness :
  let decode := fun x : string => x in
  let parse := fun _ : string => @nil (string * string) in
  let props0 := {| term := None; location_search := "" |} in
  let props1 := {| term := Some "alpha"; location_search := "" |} in
  let props2 := {| term := Some "beta"; location_search := "" |} in
  let page := repeat example_result 2 in
  let r := run 2 decode parse props0
             [TermChanged props1; TermChanged props2;
              Settled (Resolves page "id-1" "2023-01-01");
              Settled (Resolves page "id-2" "2023-01-02");
              WaypointEntered] in
  map (fun c : string * SearchParams => (fst c, p_offset (snd c)))
    (searchCalls (comp r))
  = [("alpha", 0); ("beta", 0); ("beta", 2 + 2)].
Proof.
  apply (stale_response_skips_a_page 2 (fun x : string => x)
           (fun _ : string => @nil (string * string))
           {| term := None; location_search := "" |}
           {| term := Some "alpha"; location_search := "" |}
           {| term := Some "beta"; location_search := "" |}
           (repeat example_result 2) (repeat example_result 2)
           "id-1" "2023-01-01" "id-2" "2023-01-02");
    [lia | reflexivity | reflexivity | discriminate | cbn; lia | cbn; lia].
Defined.

End SearchComponentFacts.
